(** * BrowseFileDialog.tsx: a shallow embedding and its properties

    The file browsing dialog of the pipeline components manager
    (packages/pipeline-components-manager/src/BrowseFileDialog.tsx) is
    glue code over widgets of the host: its own logic is string tests on
    paths and class names, the routing of DOM events and a few guarded
    calls into the host.  The embedding keeps that shape:

    - JavaScript strings are [string]s, read as sequences of code units
      below 256; [indexOf], [replace], [trim], [split], [toLowerCase],
      [endsWith] and [includes] follow the String and Array methods the
      source calls;
    - an optional property is an [option]; a test such as
      [if (options.rootPath)] is the truthiness of that optional value;
    - what the code does to the host (forwarding an event to the saved
      handler, [preventDefault], a click on a button, [model.cd]) is
      recorded as a list of actions, in program order;
    - DOM elements and content models that the code mutates in place live
      in explicit stores. *)

From Stdlib Require Import String Ascii List ZArith Bool Lia Arith.
Import ListNotations.

Open Scope list_scope.
Open Scope string_scope.

(** ** JavaScript strings *)

Module Js.

(** [s.substring(n)] for [n] within bounds. *)
Fixpoint drop (n : nat) (s : string) : string :=
  match n, s with
  | O, _ => s
  | S _, EmptyString => EmptyString
  | S n', String _ s' => drop n' s'
  end.

(** "[s] starts with [p]"; the source tests it as
    [s.indexOf(p) === 0]. *)
Definition startsWith (s p : string) : bool := String.prefix p s.

(** Search of [p] in [s]; [i] is the position of the head of [s] in the
    string the search started from. *)
Fixpoint indexOf_from (i : Z) (s p : string) : Z :=
  if String.prefix p s then i
  else match s with
       | EmptyString => (-1)%Z
       | String _ s' => indexOf_from (i + 1)%Z s' p
       end.

(** [s.indexOf(p)]: the position of the first occurrence, or -1. *)
Definition indexOf (s p : string) : Z := indexOf_from 0%Z s p.

(** [s.replace(pat, rep)] with a string pattern: only the first
    occurrence is replaced.  The source only ever passes the empty
    replacement, in which no [$] pattern can occur. *)
Fixpoint replace (s pat rep : string) : string :=
  if String.prefix pat s then rep ++ drop (String.length pat) s
  else match s with
       | EmptyString => EmptyString
       | String c s' => String c (replace s' pat rep)
       end.

(** White space and line terminators of ECMAScript among the code units
    below 256: TAB, LF, VT, FF, CR, SP and NBSP. *)
Definition isWhiteSpace (c : ascii) : bool :=
  let n := nat_of_ascii c in
  (((9 <=? n) && (n <=? 13)) || (n =? 32) || (n =? 160))%nat.

Fixpoint trimStart (s : string) : string :=
  match s with
  | EmptyString => EmptyString
  | String c s' => if isWhiteSpace c then trimStart s' else s
  end.

Fixpoint trimEnd (s : string) : string :=
  match s with
  | EmptyString => EmptyString
  | String c s' =>
      match trimEnd s' with
      | EmptyString => if isWhiteSpace c then EmptyString else String c EmptyString
      | t => String c t
      end
  end.

(** [s.trim()]. *)
Definition trim (s : string) : string := trimEnd (trimStart s).

(** [s.endsWith(p)]. *)
Definition endsWith (s p : string) : bool :=
  (String.length p <=? String.length s)%nat
  && String.eqb (drop (String.length s - String.length p) s) p.

(** Cutting a string at every code unit that satisfies [isSep]: the
    result is never empty, and its last element is what follows the last
    separator (the whole string when there is none). *)
Fixpoint splitBy (isSep : ascii -> bool) (s : string) : list string :=
  match s with
  | EmptyString => [EmptyString]
  | String c s' =>
      if isSep c then EmptyString :: splitBy isSep s'
      else match splitBy isSep s' with
           | [] => [String c EmptyString]
           | t :: ts => String c t :: ts
           end
  end.

(** [s.split(sep)] for a separator of one code unit. *)
Definition split (sep : ascii) (s : string) : list string :=
  splitBy (fun c => Ascii.eqb c sep) s.

(** [a.pop()] as the value it returns: the last element, if any. *)
Definition pop {A : Type} (a : list A) : option A := List.last (List.map Some a) None.

(** [toLowerCase] on one code unit below 256: A-Z, and the capital
    letters of Latin-1 (0xC0-0xDE without the multiplication sign). *)
Definition lowerChar (c : ascii) : ascii :=
  let n := nat_of_ascii c in
  if (((65 <=? n) && (n <=? 90))
      || ((192 <=? n) && (n <=? 222) && negb (n =? 215)))%nat
  then ascii_of_nat (n + 32) else c.

Fixpoint toLowerCase (s : string) : string :=
  match s with
  | EmptyString => EmptyString
  | String c s' => String (lowerChar c) (toLowerCase s')
  end.

(** [a.includes(x)] on an array of strings. *)
Definition includes (a : list string) (x : string) : bool :=
  List.existsb (String.eqb x) a.

(** Truthiness of an optional string: [undefined] and the empty string
    are falsy. *)
Definition truthy (o : option string) : bool :=
  match o with
  | Some s => negb (String.eqb s EmptyString)
  | None => false
  end.

(** The string behind an optional string that a truthiness test has
    already found defined. *)
Definition str (o : option string) : string :=
  match o with
  | Some s => s
  | None => EmptyString
  end.

(** Truthiness of an optional boolean. *)
Definition truthyb (o : option bool) : bool :=
  match o with
  | Some b => b
  | None => false
  end.

End Js.

(** ** Content models of the host

    The entries of a directory listing are objects of the host
    ([Contents.IModel]); the dialog reads their [name] and [type] and
    overwrites their [path] in place.  They live in a store and are
    passed around by reference. *)

Module Contents.

Record IModel : Type := mkModel {
  name : string;
  type : string;
  path : string
}.

Definition Ref : Type := nat.
Definition Store : Type := Ref -> IModel.

(** [item.path = p] on the object behind [r]. *)
Definition setPath (st : Store) (r : Ref) (p : string) : Store :=
  fun r' =>
    if Nat.eqb r' r
    then {| name := name (st r); type := type (st r); path := p |}
    else st r'.

Definition isDirectory (m : IModel) : bool := String.eqb (type m) "directory".

End Contents.

(** ** The part of the DOM the dialog touches *)

Module Dom.

(** A [span] of the document.  [inCrumbs] says that it is a child of a
    [.jp-BreadCrumbs] element below an [.amphi-browseFileDialog] element;
    [titleAttr] is its [title] attribute, if it has one. *)
Record Element : Type := mkElement {
  inCrumbs : bool;
  titleAttr : option string;
  className : string
}.

Definition Document : Type := list Element.

(** The [title] property reflects the attribute. *)
Definition title (e : Element) : string :=
  match titleAttr e with
  | Some t => t
  | None => EmptyString
  end.

Definition setClassName (e : Element) (c : string) : Element :=
  {| inCrumbs := inCrumbs e; titleAttr := titleAttr e; className := c |}.

(** Whether [e] matches
    ['.amphi-browseFileDialog .jp-BreadCrumbs > span[title]']. *)
Definition isCrumb (e : Element) : bool :=
  inCrumbs e && match titleAttr e with Some _ => true | None => false end.

Definition querySelectorAll_crumbs (d : Document) : list Element :=
  List.filter isCrumb d.

(** ASCII white space, which separates the classes of a class name. *)
Definition isAsciiWhitespace (c : ascii) : bool :=
  let n := nat_of_ascii c in
  ((n =? 9) || (n =? 10) || (n =? 12) || (n =? 13) || (n =? 32))%nat.

Definition nonEmpty (s : string) : bool := negb (String.eqb s EmptyString).

(** The classes an element carries: the tokens of its class name. *)
Definition classList (c : string) : list string :=
  List.filter nonEmpty (Js.splitBy isAsciiWhitespace c).

Definition carries (e : Element) (cls : string) : Prop :=
  In cls (classList (className e)).

(** The two interfaces [handleEvent] tests with [instanceof], with the
    modifier flags it reads from them. *)
Inductive EventInterface : Type :=
| MouseEvent (shiftKey metaKey : bool)
| KeyboardEvent (shiftKey metaKey : bool)
| OtherEvent.

Record Event : Type := mkEvent {
  type : string;
  iface : EventInterface
}.

(** A modifier key (shift or meta) is pressed during the event. *)
Definition modifierPressed (e : Event) : bool :=
  match iface e with
  | MouseEvent shiftKey metaKey => shiftKey || metaKey
  | KeyboardEvent shiftKey metaKey => shiftKey || metaKey
  | OtherEvent => false
  end.

End Dom.

(** ** class BrowseFileDialogBreadcrumbs *)

Module BrowseFileDialogBreadcrumbs.

Import Dom.

Definition DISABLED_CLASS : string := "amphi-BreadCrumbs-disabled".

(** The body of the [forEach] callback of [onUpdateRequest]. *)
Definition updateCrumb (rootPath : option string) (crumb : Element) : Element :=
  if (Js.indexOf (title crumb) (Js.str rootPath) =? 0)%Z
  then setClassName crumb
         (Js.trim (Js.replace (className crumb) DISABLED_CLASS EmptyString))
  else if (Js.indexOf (className crumb) DISABLED_CLASS =? -1)%Z
  then setClassName crumb (className crumb ++ " amphi-BreadCrumbs-disabled")
  else crumb.

(** The guard of [onUpdateRequest]:
    [localPath && this.rootPath && localPath.indexOf(this.rootPath) === 0]. *)
Definition belowRoot (rootPath : option string) (localPath : string) : bool :=
  Js.truthy (Some localPath) && Js.truthy rootPath
  && (Js.indexOf localPath (Js.str rootPath) =? 0)%Z.

(** [onUpdateRequest(msg)].  [super] is the update of the host's
    [BreadCrumbs]; [localPath] is what
    [contents.localPath(this.model.path)] returns.  The crumbs are
    mutated in place: the other elements of the document stay as the
    host left them. *)
Definition onUpdateRequest (super : Document -> Document)
    (rootPath : option string) (localPath : string) (d : Document) : Document :=
  let d1 := super d in
  if belowRoot rootPath localPath
  then List.map (fun e => if isCrumb e then updateCrumb rootPath e else e) d1
  else d1.

(** A class name in which the marker class does not occur, as the code
    tests it: [className.indexOf('amphi-BreadCrumbs-disabled') === -1]. *)
Definition markerFree (c : string) : Prop := (Js.indexOf c DISABLED_CLASS = -1)%Z.

(** The class names the widget leaves behind: without the marker, or
    with the marker appended once after a blank. *)
Definition wellMarked (c : string) : Prop :=
  markerFree c \/ exists c0 : string, markerFree c0 /\ c = c0 ++ " " ++ DISABLED_CLASS.

(** What the host may do to the document, as far as class names go: it
    creates, drops, moves and retitles elements, and it never writes the
    marker class of this widget, so that the class name of an element is
    one the document already had or one without the marker. *)
Definition hostStep (d d' : Document) : Prop :=
  Forall (fun e' => markerFree (className e')
                    \/ exists e, In e d /\ className e' = className e) d'.

(** The documents a widget constructed with [rootPath] can see: the
    host builds one without the marker class, and then the host and the
    update requests of the widget take turns. *)
Inductive reachable (rootPath : option string) : Document -> Prop :=
| reach_init : forall d,
    Forall (fun e => markerFree (className e)) d ->
    reachable rootPath d
| reach_host : forall d d',
    reachable rootPath d -> hostStep d d' ->
    reachable rootPath d'
| reach_update : forall super localPath d,
    reachable rootPath d -> hostStep d (super d) ->
    reachable rootPath (onUpdateRequest super rootPath localPath d).

End BrowseFileDialogBreadcrumbs.

(** ** class BrowseFileDialog *)

Module BrowseFileDialog.

Import Contents.

(** The [options] of [init] and the [props] of the constructor; the
    document manager is an opaque handle of the host and is left out. *)
Record Options : Type := mkOptions {
  filter : option (IModel -> bool);
  multiselect : option bool;
  includeDir : option bool;
  rootPath : option string;
  startPath : option string;
  acceptFileOnDblClick : option bool;
  extensions : option (list string)
}.

(** The fields of the widget: the filter of its [FilterFileBrowserModel],
    the root of its breadcrumbs and the three flags. *)
Record t : Type := mkDialog {
  model_filter : IModel -> bool;
  this_multiselect : option bool;
  this_includeDir : option bool;
  this_acceptFileOnDblClick : option bool;
  breadCrumbs_rootPath : option string
}.

(** The filter [init] builds when [options.extensions] is not empty. *)
Definition extensionFilter (extensions : list string) (model : IModel) : bool :=
  if String.eqb (type model) "directory" then true
  else match Js.pop (Js.split "."%char (name model)) with
       | Some last => Js.includes extensions ("." ++ Js.toLowerCase last)
       | None => false
       end.

Definition filterFunction (options : Options) : IModel -> bool :=
  if match extensions options with
     | Some exts => (0 <? List.length exts)%nat
     | None => false
     end
  then extensionFilter
         (match extensions options with Some exts => exts | None => [] end)
  else match filter options with
       | Some f => f
       | None => fun _ => true
       end.

(** [new BrowseFileDialog(props)], with [props.filter] already a
    function. *)
Definition constructor (props : Options) (f : IModel -> bool) : t :=
  {| model_filter := f;
     this_multiselect := multiselect props;
     this_includeDir := includeDir props;
     this_acceptFileOnDblClick := acceptFileOnDblClick props;
     breadCrumbs_rootPath := rootPath props |}.

(** The calls of [model.cd] that [init] awaits, in order. *)
Definition navigation (options : Options) : list string :=
  if Js.truthy (startPath options) then
    if negb (Js.truthy (rootPath options))
       || (Js.indexOf (Js.str (startPath options)) (Js.str (rootPath options)) =? 0)%Z
    then [Js.str (startPath options)]
    else []
  else if Js.truthy (rootPath options) then [Js.str (rootPath options)]
  else [].

(** [BrowseFileDialog.init(options)]: the widget and the [cd] calls. *)
Definition init (options : Options) : t * list string :=
  (constructor options (filterFunction options), navigation options).

(** [getValue()]; [selectedItems] is what
    [this.directoryListing.selectedItems()] yields. *)
Definition getValue (this : t) (st : Store) (selectedItems : list Ref) : list Ref :=
  List.fold_left
    (fun selected item =>
       if Js.truthyb (this_includeDir this)
          || negb (String.eqb (type (st item)) "directory")
       then (selected ++ [item])%list else selected)
    selectedItems [].

(** What [handleEvent] does to the host. *)
Inductive Action : Type :=
| Forward (event : Dom.Event)
| PreventDefault (event : Dom.Event)
| StopPropagation (event : Dom.Event)
| Click (button : nat).

Definition BROWSE_FILE_CLASS : string := "amphi-browseFileDialog".
Definition BROWSE_FILE_OPEN_CLASS : string := "amphi-browseFileDialog-open".

(** The host as [handleEvent] reads it: the entry under a click, and the
    element a selector finds in the document. *)
Record Host : Type := mkHost {
  modelForClick : Dom.Event -> option IModel;
  querySelector : string -> option nat
}.

Definition isOneOf (s : string) (l : list string) : bool :=
  List.existsb (String.eqb s) l.

(** [handleEvent(event)]. *)
Definition handleEvent (this : t) (host : Host) (event : Dom.Event) : list Action :=
  let modifierKey :=
    match Dom.iface event with
    | Dom.MouseEvent shiftKey metaKey => shiftKey || metaKey
    | Dom.KeyboardEvent shiftKey metaKey => shiftKey || metaKey
    | Dom.OtherEvent => false
    end in
  if isOneOf (Dom.type event) ["keydown"; "keyup"; "mousedown"; "mouseup"; "click"]
  then
    if Js.truthyb (this_multiselect this) || negb modifierKey
    then [Forward event] else []
  else if String.eqb (Dom.type event) "dblclick"
  then
    let clickedItem := modelForClick host event in
    if match clickedItem with
       | Some item => String.eqb (type item) "directory"
       | None => false
       end
    then [Forward event]
    else
      ([PreventDefault event; StopPropagation event]
       ++ (if Js.truthyb (this_acceptFileOnDblClick this)
           then match querySelector host
                        ("." ++ BROWSE_FILE_OPEN_CLASS ++ " .jp-mod-accept") with
                | Some okButton => [Click okButton]
                | None => []
                end
           else []))%list
  else [Forward event].

(** The handler the constructor installs on the directory listing, in
    place of the one it saves as [dirListingHandleEvent]. *)
Definition directoryListing_handleEvent (this : t) (host : Host)
    (event : Dom.Event) : list Action :=
  handleEvent this host event.

(** Running the actions in a host whose state is [W]:
    [dirListingHandleEvent] is the saved handler of the directory
    listing. *)
Section Perform.

Variable W : Type.
Variable dirListingHandleEvent : Dom.Event -> W -> W.
Variable preventDefault stopPropagation : Dom.Event -> W -> W.
Variable click : nat -> W -> W.

Definition perform1 (a : Action) (w : W) : W :=
  match a with
  | Forward e => dirListingHandleEvent e w
  | PreventDefault e => preventDefault e w
  | StopPropagation e => stopPropagation e w
  | Click b => click b w
  end.

Definition perform (l : list Action) (w : W) : W :=
  List.fold_left (fun w a => perform1 a w) l w.

End Perform.

End BrowseFileDialog.

(** ** The dialog of the host *)

Module Dialog.

Record IButton : Type := mkButton {
  label : string;
  accept : bool
}.

(** [Dialog.cancelButton()] and [Dialog.okButton({ label })] of the
    host: the first rejects the dialog, the second accepts it. *)
Definition cancelButton : IButton :=
  {| label := "Cancel"; accept := false |}.

Definition okButton (l : option string) : IButton :=
  {| label := match l with Some s => s | None => "OK" end; accept := true |}.

(** A dialog as [showBrowseFileDialog] builds it; [classes] are the ones
    added with [addClass]. *)
Record t : Type := mkDialog {
  title : string;
  body : BrowseFileDialog.t;
  buttons : list IButton;
  classes : list string
}.

(** What [launch] resolves with; [value] is [null] when the dialog was
    dismissed. *)
Record IResult : Type := mkResult {
  button : IButton;
  value : option (list Contents.Ref)
}.

End Dialog.

(** ** showBrowseFileDialog *)

(** [IBrowseFileDialogOptions].  For [acceptFileOnDblClick] the code
    asks whether the object has the property at all, so the outer
    [option] is the presence of the property and the inner one its
    value. *)
Record IBrowseFileDialogOptions : Type := mkBrowseOptions {
  filter : option (Contents.IModel -> bool);
  multiselect : option bool;
  includeDir : option bool;
  acceptFileOnDblClick : option (option bool);
  rootPath : option string;
  startPath : option string;
  extensions : option (list string)
}.

(** The state outside the dialog that the function writes: the class
    name of [document.body] and the content models. *)
Record World : Type := mkWorld {
  bodyClassName : string;
  store : Contents.Store
}.

Inductive Outcome : Type :=
| Resolved (result : Dialog.IResult) (w : World)
| Rejected.

(** The options [showBrowseFileDialog] hands to [BrowseFileDialog.init];
    it passes no [extensions]. *)
Definition initOptions (options : IBrowseFileDialogOptions) : BrowseFileDialog.Options :=
  {| BrowseFileDialog.filter := filter options;
     BrowseFileDialog.multiselect := multiselect options;
     BrowseFileDialog.includeDir := includeDir options;
     BrowseFileDialog.rootPath := rootPath options;
     BrowseFileDialog.startPath := startPath options;
     BrowseFileDialog.acceptFileOnDblClick :=
       match acceptFileOnDblClick options with
       | Some v => v
       | None => Some true
       end;
     BrowseFileDialog.extensions := None |}.

Definition newDialog (browseFileDialogBody : BrowseFileDialog.t) : Dialog.t :=
  {| Dialog.title := "Select a file";
     Dialog.body := browseFileDialogBody;
     Dialog.buttons := [Dialog.cancelButton; Dialog.okButton (Some "Select")];
     Dialog.classes := [BrowseFileDialog.BROWSE_FILE_CLASS] |}.

Definition relativeToPath (rootPath : string) : string :=
  if Js.endsWith rootPath "/" then rootPath else rootPath ++ "/".

(** The loop [result.value.forEach(val => { val.path = ... })]. *)
Definition rewritePaths (rel : string) (v : list Contents.Ref)
    (st : Contents.Store) : Contents.Store :=
  List.fold_left
    (fun st val =>
       Contents.setPath st val (Js.replace (Contents.path (st val)) rel EmptyString))
    v st.

(** The callback of [dialog.launch().then(...)].  Reading
    [result.value.length] of a [null] value throws, which rejects the
    promise. *)
Definition onLaunched (options : IBrowseFileDialogOptions)
    (result : Dialog.IResult) (w : World) : Outcome :=
  let w1 := {| bodyClassName :=
                 Js.trim (Js.replace (bodyClassName w)
                            BrowseFileDialog.BROWSE_FILE_OPEN_CLASS EmptyString);
               store := store w |} in
  if Js.truthy (rootPath options) && Dialog.accept (Dialog.button result) then
    match Dialog.value result with
    | None => Rejected
    | Some v =>
        if (0 <? List.length v)%nat
        then Resolved result
               {| bodyClassName := bodyClassName w1;
                  store := rewritePaths (relativeToPath (Js.str (rootPath options)))
                             v (store w1) |}
        else Resolved result w1
    end
  else Resolved result w1.

(** The world after
    [document.body.className += ` ${BROWSE_FILE_OPEN_CLASS}`]. *)
Definition opened (w : World) : World :=
  {| bodyClassName :=
       bodyClassName w ++ " " ++ BrowseFileDialog.BROWSE_FILE_OPEN_CLASS;
     store := store w |}.

(** One run of [showBrowseFileDialog]: the [cd] calls of [init], the
    dialog it creates and what its promise settles with. *)
Record Run : Type := mkRun {
  cdCalls : list string;
  dialog : Dialog.t;
  outcome : Outcome
}.

(** [showBrowseFileDialog(manager, options)].  [launch] is the host's
    [dialog.launch()]: it decides, from the dialog and the world the
    dialog opens in, the result and the world at the time the dialog
    closes. *)
Definition showBrowseFileDialog
    (launch : Dialog.t -> World -> Dialog.IResult * World)
    (options : IBrowseFileDialogOptions) (w : World) : Run :=
  let '(browseFileDialogBody, cds) := BrowseFileDialog.init (initOptions options) in
  let dialog := newDialog browseFileDialogBody in
  let '(result, w2) := launch dialog (opened w) in
  {| cdCalls := cds; dialog := dialog; outcome := onLaunched options result w2 |}.

(** ** Sample inputs *)

Module Examples.

Import Dom.

Definition crumb (t c : string) : Element :=
  {| inCrumbs := true; titleAttr := Some t; className := c |}.

(** The crumbs of the host at ["data/raw/2024"]: home, ellipsis, parent
    and current directory. *)
Definition crumbs0 : Document :=
  [ crumb "/srv" "jp-BreadCrumbs-home";
    crumb "data" "jp-BreadCrumbs-item";
    crumb "data/raw" "jp-BreadCrumbs-item";
    crumb "data/raw/2024" "jp-BreadCrumbs-item" ].

(** The titles the host gives them when the model moves on. *)
Fixpoint retitle (ts : list string) (d : Document) : Document :=
  match ts, d with
  | t :: ts', e :: d' =>
      {| inCrumbs := inCrumbs e; titleAttr := Some t; className := className e |}
      :: retitle ts' d'
  | _, _ => d
  end.

Definition stay (d : Document) : Document := d.

Definition descend (d : Document) : Document :=
  retitle ["/srv"; "data/raw"; "data/raw/2024"; "data/raw/2024/q1"] d.

(** The crumbs after the first update request of a widget rooted at
    ["data/raw"]. *)
Definition crumbs1 : Document :=
  BrowseFileDialogBreadcrumbs.onUpdateRequest stay (Some "data/raw")
    "data/raw/2024" crumbs0.

(** The separator between two crumbs: a [span] without a title. *)
Definition separator : Element :=
  {| inCrumbs := true; titleAttr := None; className := "" |}.

Definition fileItem : Contents.IModel :=
  {| Contents.name := "Sales.CSV"; Contents.type := "file";
     Contents.path := "data/raw/Sales.CSV" |}.

Definition dirItem : Contents.IModel :=
  {| Contents.name := "raw"; Contents.type := "directory";
     Contents.path := "data/raw" |}.

Definition models : Contents.Store :=
  fun r =>
    match r with
    | 0 => fileItem
    | 1 => dirItem
    | _ => {| Contents.name := "notes"; Contents.type := "file";
              Contents.path := "data/notes" |}
    end.

Definition widget : BrowseFileDialog.t :=
  {| BrowseFileDialog.model_filter := fun _ => true;
     BrowseFileDialog.this_multiselect := Some false;
     BrowseFileDialog.this_includeDir := None;
     BrowseFileDialog.this_acceptFileOnDblClick := Some true;
     BrowseFileDialog.breadCrumbs_rootPath := Some "data" |}.

(** A document in which the selector of the accept button finds
    nothing, and one in which it finds the element 7. *)
Definition bareHost (item : Contents.IModel) : BrowseFileDialog.Host :=
  {| BrowseFileDialog.modelForClick := fun _ => Some item;
     BrowseFileDialog.querySelector := fun _ => None |}.

Definition openHost (item : Contents.IModel) : BrowseFileDialog.Host :=
  {| BrowseFileDialog.modelForClick := fun _ => Some item;
     BrowseFileDialog.querySelector :=
       fun sel =>
         if String.eqb sel ".amphi-browseFileDialog-open .jp-mod-accept"
         then Some 7 else None |}.

(** A document in which the listing finds no entry under the click. *)
Definition emptyAreaHost : BrowseFileDialog.Host :=
  {| BrowseFileDialog.modelForClick := fun _ => None;
     BrowseFileDialog.querySelector :=
       fun sel =>
         if String.eqb sel ".amphi-browseFileDialog-open .jp-mod-accept"
         then Some 7 else None |}.

Definition multiWidget : BrowseFileDialog.t :=
  {| BrowseFileDialog.model_filter := fun _ => true;
     BrowseFileDialog.this_multiselect := Some true;
     BrowseFileDialog.this_includeDir := Some true;
     BrowseFileDialog.this_acceptFileOnDblClick := None;
     BrowseFileDialog.breadCrumbs_rootPath := None |}.

Definition shiftClick : Event :=
  {| type := "click"; iface := MouseEvent true false |}.

Definition dblclick : Event :=
  {| type := "dblclick"; iface := MouseEvent false false |}.

Definition scroll : Event :=
  {| type := "scroll"; iface := OtherEvent |}.

Definition initWithExtensions : BrowseFileDialog.Options :=
  {| BrowseFileDialog.filter := None;
     BrowseFileDialog.multiselect := None;
     BrowseFileDialog.includeDir := None;
     BrowseFileDialog.rootPath := Some "data";
     BrowseFileDialog.startPath := Some "data/raw";
     BrowseFileDialog.acceptFileOnDblClick := None;
     BrowseFileDialog.extensions := Some [".csv"; ".json"] |}.

Definition browseOptions : IBrowseFileDialogOptions :=
  {| filter := None;
     multiselect := None;
     includeDir := Some true;
     acceptFileOnDblClick := None;
     rootPath := Some "data";
     startPath := None;
     extensions := None |}.

Definition world0 : World :=
  {| bodyClassName := "jp-mod-dark"; store := models |}.

(** A user who selects the entries 0 and 1 and presses the second
    button. *)
Definition pressSelect (d : Dialog.t) (w : World) : Dialog.IResult * World :=
  ({| Dialog.button := List.nth 1 (Dialog.buttons d) Dialog.cancelButton;
      Dialog.value := Some (BrowseFileDialog.getValue (Dialog.body d) (store w) [0; 1]) |},
   w).

(** The same options with [acceptFileOnDblClick] there and undefined. *)
Definition quietOptions : IBrowseFileDialogOptions :=
  {| filter := None;
     multiselect := None;
     includeDir := Some true;
     acceptFileOnDblClick := Some None;
     rootPath := Some "data";
     startPath := None;
     extensions := None |}.

(** A user who selects the root directory itself, entry 3 of a store in
    which it is listed, and presses the second button. *)
Definition rootItem : Contents.IModel :=
  {| Contents.name := "data"; Contents.type := "directory";
     Contents.path := "data" |}.

Definition pressRoot (d : Dialog.t) (w : World) : Dialog.IResult * World :=
  let st := fun r => if Nat.eqb r 3 then rootItem else store w r in
  ({| Dialog.button := List.nth 1 (Dialog.buttons d) Dialog.cancelButton;
      Dialog.value := Some (BrowseFileDialog.getValue (Dialog.body d) st [3]) |},
   {| bodyClassName := bodyClassName w; store := st |}).

End Examples.

(** ** Vocabulary of the statements *)

Module Voc.

(** [p] occurs in [s]. *)
Definition occurs (p s : string) : Prop := exists a b : string, s = a ++ p ++ b.

(** The position of the first occurrence of [p] in [s], if there is
    one. *)
Fixpoint firstOcc (s p : string) : option nat :=
  if String.prefix p s then Some 0
  else match s with
       | EmptyString => None
       | String _ s' => option_map S (firstOcc s' p)
       end.

(** The first [n] code units of [s]. *)
Fixpoint take (n : nat) (s : string) : string :=
  match n, s with
  | O, _ => EmptyString
  | S _, EmptyString => EmptyString
  | S n', String c s' => String c (take n' s')
  end.

(** No code unit of [s] satisfies [f]. *)
Fixpoint noneOf (f : ascii -> bool) (s : string) : bool :=
  match s with
  | EmptyString => true
  | String c s' => negb (f c) && noneOf f s'
  end.

(** White space that [trim] removes and that does not separate classes
    (VT and NBSP), and the strings without any. *)
Definition trimOnlySpace (c : ascii) : bool :=
  Js.isWhiteSpace c && negb (Dom.isAsciiWhitespace c).

Definition plainSpaced (s : string) : Prop := noneOf trimOnlySpace s = true.

(** [s] has no dot. *)
Definition dotless (s : string) : Prop :=
  noneOf (fun c => Ascii.eqb c "."%char) s = true.

(** [s] without the first occurrence of [p]; [s] itself when [p] does
    not occur in it. *)
Definition removeFirst (p s : string) : string :=
  match firstOcc s p with
  | Some n => take n s ++ Js.drop (n + String.length p) s
  | None => s
  end.

(** [s] ends in a slash. *)
Fixpoint endsInSlash (s : string) : bool :=
  match s with
  | EmptyString => false
  | String c EmptyString => Ascii.eqb c "/"%char
  | String _ s' => endsInSlash s'
  end.

(** [s], with a slash appended when it does not end in one. *)
Definition withSlash (s : string) : string :=
  if endsInSlash s then s else s ++ "/".

End Voc.

(** * Properties *)

(** ** Facts about the string operations *)

Module JsFacts.

Import Js Voc.

Lemma append_nil_r (s : string) : s ++ "" = s.
Proof. induction s as [|c s IH]; simpl; [reflexivity | now rewrite IH]. Qed.

Lemma append_assoc (a b c : string) : (a ++ b) ++ c = a ++ b ++ c.
Proof. induction a as [|x a IH]; simpl; [reflexivity | now rewrite IH]. Qed.

Lemma length_append (a b : string) :
  String.length (a ++ b) = (String.length a + String.length b)%nat.
Proof. induction a as [|x a IH]; simpl; [reflexivity | now rewrite IH]. Qed.

Lemma drop_append (a b : string) : drop (String.length a) (a ++ b) = b.
Proof. induction a as [|x a IH]; simpl; [reflexivity | exact IH]. Qed.

Lemma prefix_nil (s : string) : String.prefix "" s = true.
Proof. destruct s; reflexivity. Qed.

Lemma prefix_cons (c d : ascii) (p s : string) :
  String.prefix (String c p) (String d s) = true <-> c = d /\ String.prefix p s = true.
Proof.
  simpl. destruct (ascii_dec c d) as [->|Hne].
  - tauto.
  - split; [discriminate | intros [H _]; contradiction].
Qed.

Lemma prefix_append (p b : string) : String.prefix p (p ++ b) = true.
Proof.
  induction p as [|c p IH]; simpl; [apply prefix_nil|].
  destruct (ascii_dec c c); [exact IH | congruence].
Qed.

Lemma prefix_split (p s : string) :
  String.prefix p s = true -> s = p ++ drop (String.length p) s.
Proof.
  revert s. induction p as [|c p IH]; intros s H; [reflexivity|].
  destruct s as [|d s]; [discriminate|].
  apply prefix_cons in H. destruct H as [-> H].
  simpl. f_equal. now apply IH.
Qed.

(** A prefix of [x ++ c :: y] either fits into [x] or runs over [c]. *)
Lemma prefix_over_char (p x y : string) (c : ascii) :
  String.prefix p (x ++ String c y) = true ->
  String.prefix p x = true \/ In c (list_ascii_of_string p).
Proof.
  revert p. induction x as [|d x IH]; intros p H.
  - destruct p as [|e p]; [left; reflexivity|].
    simpl in H. destruct (ascii_dec e c) as [->|]; [|discriminate].
    right. simpl. now left.
  - destruct p as [|e p]; [left; reflexivity|].
    change (String d x ++ String c y) with (String d (x ++ String c y)) in H.
    apply prefix_cons in H. destruct H as [-> H].
    destruct (IH _ H) as [Hp|Hin].
    + left. apply prefix_cons. now split.
    + right. simpl. now right.
Qed.

(** *** indexOf *)

Lemma indexOf_from_firstOcc (i : Z) (s p : string) :
  indexOf_from i s p =
  match firstOcc s p with
  | Some n => (i + Z.of_nat n)%Z
  | None => (-1)%Z
  end.
Proof.
  revert i. induction s as [|c s IH]; intros i; cbn [indexOf_from firstOcc].
  - destruct (String.prefix p ""); [cbn; lia | reflexivity].
  - destruct (String.prefix p (String c s)); [cbn; lia|].
    rewrite IH. destruct (firstOcc s p); cbn [option_map]; [lia | reflexivity].
Qed.

Lemma indexOf_firstOcc (s p : string) :
  indexOf s p =
  match firstOcc s p with
  | Some n => Z.of_nat n
  | None => (-1)%Z
  end.
Proof.
  unfold indexOf. rewrite indexOf_from_firstOcc.
  destruct (firstOcc s p); reflexivity.
Qed.

(** [s.indexOf(p) === 0] says that [s] starts with [p]. *)
Lemma indexOf_zero (s p : string) :
  (indexOf s p =? 0)%Z = startsWith s p.
Proof.
  rewrite indexOf_firstOcc. unfold startsWith.
  destruct s as [|c s]; cbn [firstOcc].
  - destruct (String.prefix p ""); reflexivity.
  - destruct (String.prefix p (String c s)); [reflexivity|].
    destruct (firstOcc s p); cbn [option_map]; [|reflexivity].
    apply Z.eqb_neq. lia.
Qed.

Lemma firstOcc_some (s p : string) (n : nat) :
  firstOcc s p = Some n ->
  s = take n s ++ p ++ drop (n + String.length p) s.
Proof.
  revert n. induction s as [|c s IH]; intros n; cbn [firstOcc].
  - destruct (String.prefix p "") eqn:E; [|discriminate].
    intros [= <-]. now apply prefix_split in E.
  - destruct (String.prefix p (String c s)) eqn:E.
    + intros [= <-]. now apply prefix_split in E.
    + destruct (firstOcc s p) as [m|]; [|discriminate].
      intros [= <-]. cbn [take drop Nat.add append]. f_equal. now apply IH.
Qed.

Lemma firstOcc_prefix (s p : string) :
  String.prefix p s = true -> firstOcc s p = Some 0.
Proof. intros H. destruct s; cbn [firstOcc]; now rewrite H. Qed.

Lemma occurs_firstOcc (s p : string) :
  occurs p s -> firstOcc s p <> None.
Proof.
  intros (a & b & ->). induction a as [|c a IH].
  - cbn [append]. rewrite firstOcc_prefix by apply prefix_append. discriminate.
  - change (String c a ++ p ++ b) with (String c (a ++ p ++ b)).
    cbn [firstOcc].
    destruct (String.prefix p (String c (a ++ p ++ b))); [discriminate|].
    destruct (firstOcc (a ++ p ++ b) p); [discriminate | contradiction].
Qed.

Lemma firstOcc_none (s p : string) :
  firstOcc s p = None <-> ~ occurs p s.
Proof.
  split.
  - intros H Ho. now apply occurs_firstOcc in Ho.
  - intros H. destruct (firstOcc s p) as [n|] eqn:E; [|reflexivity].
    exfalso. apply H. apply firstOcc_some in E.
    now exists (take n s), (drop (n + String.length p) s).
Qed.

(** [s.indexOf(p) === -1] says that [p] does not occur in [s]. *)
Lemma indexOf_none (s p : string) :
  indexOf s p = (-1)%Z <-> ~ occurs p s.
Proof.
  rewrite <- firstOcc_none, indexOf_firstOcc.
  destruct (firstOcc s p); split; intros H; try discriminate; try reflexivity.
  lia.
Qed.

(** *** replace *)

(** [replace] cuts the first occurrence out and puts [r] in its place;
    without an occurrence the string is returned as it is. *)
Lemma replace_firstOcc (s p r : string) :
  replace s p r =
  match firstOcc s p with
  | Some n => take n s ++ r ++ drop (n + String.length p) s
  | None => s
  end.
Proof.
  induction s as [|c s IH]; cbn [replace firstOcc].
  - destruct (String.prefix p ""); reflexivity.
  - destruct (String.prefix p (String c s)); [reflexivity|].
    rewrite IH. destruct (firstOcc s p); reflexivity.
Qed.

Lemma replace_absent (s p r : string) :
  ~ occurs p s -> replace s p r = s.
Proof.
  intros H. apply firstOcc_none in H. now rewrite replace_firstOcc, H.
Qed.

Lemma occurs_cons (p s : string) (c : ascii) :
  occurs p s -> occurs p (String c s).
Proof. intros (a & b & ->). now exists (String c a), b. Qed.

Lemma occurs_trans (p t s : string) :
  occurs p t -> occurs t s -> occurs p s.
Proof.
  intros (a & b & ->) (a' & b' & ->).
  exists (a' ++ a), (b ++ b'). now rewrite !append_assoc.
Qed.

Lemma prefix_occurs (p s : string) : String.prefix p s = true -> occurs p s.
Proof.
  intros H. exists "", (drop (String.length p) s). now apply prefix_split.
Qed.

(** Searching past a code unit that the pattern does not contain. *)
Section PastChar.

Variables (p : string) (c : ascii).
Hypothesis c_fresh : ~ In c (list_ascii_of_string p).

Lemma prefix_past (x y : string) :
  ~ occurs p x -> String.prefix p (x ++ String c y) = false.
Proof.
  intros Hx. destruct (String.prefix p (x ++ String c y)) eqn:E; [|reflexivity].
  exfalso. apply prefix_over_char in E. destruct E as [E|E].
  - apply Hx. now apply prefix_occurs.
  - contradiction.
Qed.

Lemma firstOcc_past (x y : string) :
  ~ occurs p x ->
  firstOcc (x ++ String c y) p =
  option_map (fun n => String.length x + 1 + n)%nat (firstOcc y p).
Proof.
  intros Hx. induction x as [|d x IH].
  - pose proof (prefix_past "" y Hx) as E. cbn [append] in *.
    cbn [firstOcc]. rewrite E. destruct (firstOcc y p); reflexivity.
  - change (String d x ++ String c y) with (String d (x ++ String c y)).
    cbn [firstOcc].
    change (String d (x ++ String c y)) with (String d x ++ String c y).
    rewrite (prefix_past _ y Hx).
    rewrite IH by (intros H; apply Hx; now apply occurs_cons).
    destruct (firstOcc y p); reflexivity.
Qed.

Lemma replace_past (x y r : string) :
  ~ occurs p x ->
  replace (x ++ String c y) p r = x ++ String c (replace y p r).
Proof.
  intros Hx. induction x as [|d x IH].
  - pose proof (prefix_past "" y Hx) as E. cbn [append] in *.
    cbn [replace]. now rewrite E.
  - change (String d x ++ String c y) with (String d (x ++ String c y)).
    cbn [replace].
    change (String d (x ++ String c y)) with (String d x ++ String c y).
    rewrite (prefix_past _ y Hx).
    rewrite IH by (intros H; apply Hx; now apply occurs_cons).
    reflexivity.
Qed.

End PastChar.

(** *** trim *)

Lemma trimStart_suffix (s : string) : exists a : string, s = a ++ trimStart s.
Proof.
  induction s as [|c s [a IH]]; cbn [trimStart].
  - now exists "".
  - destruct (isWhiteSpace c).
    + exists (String c a). cbn [append]. now rewrite <- IH.
    + now exists "".
Qed.

Lemma trimEnd_prefix (s : string) : exists b : string, s = trimEnd s ++ b.
Proof.
  induction s as [|c s [b IH]]; cbn [trimEnd].
  - now exists "".
  - destruct (trimEnd s) as [|d t] eqn:E.
    + destruct (isWhiteSpace c).
      * now exists (String c s).
      * exists s. reflexivity.
    + exists b. cbn [append]. f_equal. exact IH.
Qed.

Lemma trim_occurs (s : string) : occurs (trim s) s.
Proof.
  unfold trim. destruct (trimStart_suffix s) as [a Ha].
  destruct (trimEnd_prefix (trimStart s)) as [b Hb].
  exists a, b. now rewrite <- Hb.
Qed.

(** *** splitBy *)

Lemma splitBy_nonempty (f : ascii -> bool) (s : string) : splitBy f s <> [].
Proof.
  induction s as [|c s IH]; cbn [splitBy]; [discriminate|].
  destruct (f c); [discriminate|].
  destruct (splitBy f s); [contradiction | discriminate].
Qed.

Lemma splitBy_head (f : ascii -> bool) (s u : string) (us : list string) :
  splitBy f s = u :: us -> exists b : string, s = u ++ b.
Proof.
  revert u us. induction s as [|c s IH]; intros u us; cbn [splitBy].
  - intros [= <- _]. now exists "".
  - destruct (f c).
    + intros [= <- _]. now exists (String c s).
    + destruct (splitBy f s) as [|v vs] eqn:E.
      * now destruct (splitBy_nonempty f s).
      * intros [= <- _]. destruct (IH v vs eq_refl) as [b ->].
        now exists b.
Qed.

(** Every piece of a split is a piece of the string. *)
Lemma splitBy_occurs (f : ascii -> bool) (s t : string) :
  In t (splitBy f s) -> occurs t s.
Proof.
  revert t. induction s as [|c s IH]; intros t; cbn [splitBy].
  - intros [<-|[]]. now exists "", "".
  - destruct (f c).
    + intros [<-|H]; [now exists "", (String c s)|].
      apply occurs_cons. now apply IH.
    + destruct (splitBy f s) as [|u us] eqn:E.
      * intros [<-|[]]. now exists "", s.
      * intros [<-|H].
        -- destruct (splitBy_head f s u us E) as [b' ->].
           now exists "", b'.
        -- apply occurs_cons. apply IH. now right.
Qed.

(** Cutting at a separator cuts the two sides independently. *)
Lemma splitBy_append (f : ascii -> bool) (x y : string) (c : ascii) :
  f c = true ->
  splitBy f (x ++ String c y) = (splitBy f x ++ splitBy f y)%list.
Proof.
  intros Hc. induction x as [|d x IH].
  - cbn [append splitBy]. now rewrite Hc.
  - change (String d x ++ String c y) with (String d (x ++ String c y)).
    cbn [splitBy]. rewrite IH. destruct (f d); [reflexivity|].
    destruct (splitBy f x) as [|u us] eqn:E; [|reflexivity].
    now destruct (splitBy_nonempty f x).
Qed.

Lemma splitBy_whole (f : ascii -> bool) (s : string) :
  noneOf f s = true -> splitBy f s = [s].
Proof.
  induction s as [|c s IH]; cbn [noneOf splitBy]; [reflexivity|].
  intros H. apply andb_prop in H. destruct H as [Hc Hs].
  apply negb_true_iff in Hc. rewrite Hc, (IH Hs). reflexivity.
Qed.

(** *** pop *)

Lemma pop_last {A : Type} (l : list A) (x : A) : pop (l ++ [x])%list = Some x.
Proof.
  unfold pop. rewrite List.map_app. cbn [List.map]. apply List.last_last.
Qed.

Lemma pop_append {A : Type} (l l' : list A) :
  l' <> [] -> pop (l ++ l')%list = pop l'.
Proof.
  intros H. destruct (List.exists_last H) as (l0 & x & ->).
  rewrite List.app_assoc, !pop_last. reflexivity.
Qed.

(** What [name.split('.').pop()] is: the whole name when it has no dot,
    and otherwise what follows its last dot. *)
Lemma pop_split_whole (s : string) :
  noneOf (fun c => Ascii.eqb c "."%char) s = true ->
  pop (split "."%char s) = Some s.
Proof.
  intros H. unfold split. rewrite (splitBy_whole _ _ H). reflexivity.
Qed.

Lemma pop_split_after (pre suf : string) :
  noneOf (fun c => Ascii.eqb c "."%char) suf = true ->
  pop (split "."%char (pre ++ "." ++ suf)) = Some suf.
Proof.
  intros H. unfold split.
  change ("." ++ suf) with (String "."%char suf).
  rewrite splitBy_append by reflexivity.
  rewrite pop_append by apply splitBy_nonempty.
  now apply pop_split_whole.
Qed.

Lemma pop_split_some (s : string) : pop (split "."%char s) <> None.
Proof.
  unfold split. destruct (List.exists_last (splitBy_nonempty (fun c => Ascii.eqb c "."%char) s))
    as (l & x & ->).
  rewrite pop_last. discriminate.
Qed.

Lemma includes_In (a : list string) (x : string) :
  includes a x = true <-> In x a.
Proof.
  unfold includes. rewrite List.existsb_exists. split.
  - intros (y & Hy & E). apply String.eqb_eq in E. now subst.
  - intros H. exists x. split; [exact H | apply String.eqb_refl].
Qed.

End JsFacts.

(** ** The breadcrumbs *)

Module BreadcrumbsFacts.

Import Js Voc JsFacts Dom BrowseFileDialogBreadcrumbs.

Lemma marker_no_blank : ~ In " "%char (list_ascii_of_string DISABLED_CLASS).
Proof.
  cbn. intros H.
  repeat (destruct H as [H|H]; [discriminate H|]). exact H.
Qed.

Lemma markerFree_occurs (c : string) :
  markerFree c <-> ~ occurs DISABLED_CLASS c.
Proof. apply indexOf_none. Qed.

Lemma markerFree_dec (c : string) :
  (indexOf c DISABLED_CLASS =? -1)%Z = true <-> markerFree c.
Proof. apply Z.eqb_eq. Qed.

Lemma markerFree_piece (c t : string) :
  markerFree c -> occurs t c -> markerFree t.
Proof.
  rewrite !markerFree_occurs. intros Hc Ht Ho. apply Hc.
  now apply occurs_trans with t.
Qed.

Lemma markerFree_blank (c0 : string) :
  markerFree c0 -> markerFree (c0 ++ " ").
Proof.
  rewrite !markerFree_occurs, <- !firstOcc_none. intros H.
  apply firstOcc_none in H.
  change " " with (String " "%char "").
  rewrite (firstOcc_past _ _ marker_no_blank _ _ H).
  reflexivity.
Qed.

(** Taking the marker away from a class name the widget wrote leaves no
    marker behind. *)
Lemma removal_markerFree (c : string) :
  wellMarked c -> markerFree (trim (replace c DISABLED_CLASS "")).
Proof.
  intros [H|(c0 & H0 & ->)].
  - rewrite replace_absent by now apply markerFree_occurs.
    apply markerFree_piece with c; [exact H | apply trim_occurs].
  - change (" " ++ DISABLED_CLASS) with (String " "%char DISABLED_CLASS).
    rewrite (replace_past _ _ marker_no_blank)
      by now apply markerFree_occurs.
    change (replace DISABLED_CLASS DISABLED_CLASS "") with "".
    apply markerFree_piece with (c0 ++ " ");
      [now apply markerFree_blank | apply trim_occurs].
Qed.

Lemma marked_carries (c0 : string) :
  In DISABLED_CLASS (classList (c0 ++ " " ++ DISABLED_CLASS)).
Proof.
  unfold classList.
  change (" " ++ DISABLED_CLASS) with (String " "%char DISABLED_CLASS).
  rewrite splitBy_append by reflexivity.
  rewrite List.filter_app. apply List.in_or_app. right.
  vm_compute. now left.
Qed.

Lemma markerFree_not_carries (c : string) :
  markerFree c -> ~ In DISABLED_CLASS (classList c).
Proof.
  intros H Hin. apply markerFree_occurs in H. apply H.
  unfold classList in Hin. apply List.filter_In in Hin.
  destruct Hin as [Hin _]. now apply splitBy_occurs in Hin.
Qed.

(** One crumb through the callback of [forEach]. *)
Lemma updateCrumb_frame (rootPath : option string) (e : Element) :
  titleAttr (updateCrumb rootPath e) = titleAttr e
  /\ inCrumbs (updateCrumb rootPath e) = inCrumbs e.
Proof.
  unfold updateCrumb.
  destruct (indexOf (title e) (str rootPath) =? 0)%Z; [now split|].
  destruct (indexOf (className e) DISABLED_CLASS =? -1)%Z; now split.
Qed.

Lemma updateCrumb_below (rootPath : option string) (e : Element) :
  wellMarked (className e) ->
  startsWith (title e) (str rootPath) = true ->
  markerFree (className (updateCrumb rootPath e)).
Proof.
  intros Hw Hs. unfold updateCrumb. rewrite indexOf_zero, Hs.
  cbn [className setClassName]. now apply removal_markerFree.
Qed.

Lemma updateCrumb_above (rootPath : option string) (e : Element) :
  wellMarked (className e) ->
  startsWith (title e) (str rootPath) = false ->
  exists c0 : string,
    markerFree c0 /\ className (updateCrumb rootPath e) = c0 ++ " " ++ DISABLED_CLASS.
Proof.
  intros Hw Hs. unfold updateCrumb. rewrite indexOf_zero, Hs.
  destruct (indexOf (className e) DISABLED_CLASS =? -1)%Z eqn:E.
  - apply markerFree_dec in E. exists (className e). now split.
  - destruct Hw as [H|H].
    + apply markerFree_dec in H. congruence.
    + exact H.
Qed.

Lemma updateCrumb_wellMarked (rootPath : option string) (e : Element) :
  wellMarked (className e) -> wellMarked (className (updateCrumb rootPath e)).
Proof.
  intros Hw. destruct (startsWith (title e) (str rootPath)) eqn:Hs.
  - left. now apply updateCrumb_below.
  - right. now apply updateCrumb_above.
Qed.

Lemma hostStep_wellMarked (d d' : Document) :
  Forall (fun e => wellMarked (className e)) d -> hostStep d d' ->
  Forall (fun e => wellMarked (className e)) d'.
Proof.
  intros Hd Hs. unfold hostStep in Hs.
  rewrite List.Forall_forall in *. intros e' He'.
  destruct (Hs e' He') as [H|(e & He & ->)]; [now left | now apply Hd].
Qed.

Lemma hostStep_markerFree (d d' : Document) :
  Forall (fun e => markerFree (className e)) d -> hostStep d d' ->
  Forall (fun e => markerFree (className e)) d'.
Proof.
  intros Hd Hs. unfold hostStep in Hs.
  rewrite List.Forall_forall in *. intros e' He'.
  destruct (Hs e' He') as [H|(e & He & E)]; [exact H|].
  unfold markerFree. rewrite E. now apply Hd.
Qed.

(** The invariant of the documents a widget can see. *)
Lemma reachable_wellMarked (rootPath : option string) (d : Document) :
  reachable rootPath d -> Forall (fun e => wellMarked (className e)) d.
Proof.
  induction 1 as [d H|d d' _ IH Hs|super localPath d _ IH Hs].
  - apply List.Forall_impl with (2 := H). intros e He. now left.
  - now apply hostStep_wellMarked with d.
  - pose proof (hostStep_wellMarked _ _ IH Hs) as H1.
    unfold onUpdateRequest. destruct (belowRoot rootPath localPath); [|exact H1].
    rewrite List.Forall_forall in *. intros e' He'.
    apply List.in_map_iff in He'. destruct He' as (e & <- & He).
    destruct (isCrumb e); [|now apply H1].
    apply updateCrumb_wellMarked. now apply H1.
Qed.

(** A widget without a root never writes the marker. *)
Lemma reachable_unrooted (rootPath : option string) (d : Document) :
  truthy rootPath = false ->
  reachable rootPath d -> Forall (fun e => markerFree (className e)) d.
Proof.
  intros Hr. induction 1 as [d H|d d' _ IH Hs|super localPath d _ IH Hs].
  - exact H.
  - now apply hostStep_markerFree with d.
  - unfold onUpdateRequest, belowRoot. rewrite Hr, andb_false_r. cbn [andb].
    now apply hostStep_markerFree with d.
Qed.

Lemma startsWith_nonempty (s r : string) :
  startsWith s r = true -> truthy (Some r) = true -> truthy (Some s) = true.
Proof.
  unfold startsWith. destruct s as [|c s]; [|reflexivity].
  destruct r; [intros _ H; exact H | discriminate].
Qed.

(** C1. A dialog built with the root [r] whose model stands at a local
    path that starts with [r]: after the update request, every
    breadcrumb element (every element the selector of the widget finds)
    whose title does not start with [r] carries the class
    [amphi-BreadCrumbs-disabled], and every one whose title starts with
    [r] does not carry it.  The document before the request is any one
    the widget can have in front of it: built by the host without that
    class, and then changed by the host and by update requests only. *)
Theorem crumbs_above_root_disabled
    (r : string) (super : Document -> Document) (localPath : string)
    (d : Document) (e : Element) :
  reachable (Some r) d ->
  hostStep d (super d) ->
  startsWith localPath r = true ->
  In e (querySelectorAll_crumbs (onUpdateRequest super (Some r) localPath d)) ->
  (startsWith (title e) r = false -> carries e DISABLED_CLASS)
  /\ (startsWith (title e) r = true -> ~ carries e DISABLED_CLASS).
Proof.
  intros Hreach Hsuper Hlocal Hin.
  apply List.filter_In in Hin. destruct Hin as [Hin Hcrumb].
  destruct (truthy (Some r)) eqn:Hr.
  - pose proof (hostStep_wellMarked _ _ (reachable_wellMarked _ _ Hreach) Hsuper) as H1.
    unfold onUpdateRequest, belowRoot in Hin.
    rewrite (startsWith_nonempty _ _ Hlocal Hr), Hr, indexOf_zero in Hin.
    cbn [str andb] in Hin. rewrite Hlocal in Hin.
    apply List.in_map_iff in Hin. destruct Hin as (e0 & He & Hin0).
    rewrite List.Forall_forall in H1. specialize (H1 e0 Hin0).
    destruct (isCrumb e0) eqn:Hc0.
    + subst e. destruct (updateCrumb_frame (Some r) e0) as [Ht _].
      assert (Htitle : title (updateCrumb (Some r) e0) = title e0)
        by (unfold title; now rewrite Ht).
      rewrite Htitle. split; intros Hs.
      * destruct (updateCrumb_above (Some r) e0 H1 Hs) as (c0 & _ & Hc).
        unfold carries. rewrite Hc. apply marked_carries.
      * apply markerFree_not_carries. now apply updateCrumb_below.
    + subst e0. congruence.
  - pose proof (hostStep_markerFree _ _ (reachable_unrooted _ _ Hr Hreach) Hsuper) as H1.
    unfold onUpdateRequest, belowRoot in Hin. rewrite Hr, andb_false_r in Hin.
    cbn [andb] in Hin.
    rewrite List.Forall_forall in H1. specialize (H1 e Hin).
    assert (r = "") as ->.
    { cbn in Hr. apply negb_false_iff in Hr. now apply String.eqb_eq in Hr. }
    split; intros Hs.
    + unfold startsWith in Hs. now rewrite prefix_nil in Hs.
    + now apply markerFree_not_carries.
Qed.

Lemma crumbs_above_root_disabled_witness :
  carries (Examples.crumb "/srv" "jp-BreadCrumbs-home amphi-BreadCrumbs-disabled")
    DISABLED_CLASS
  /\ ~ carries (Examples.crumb "data/raw" "jp-BreadCrumbs-item") DISABLED_CLASS.
Proof.
  assert (R : reachable (Some "data/raw") Examples.crumbs1).
  { apply (reach_update (Some "data/raw") Examples.stay "data/raw/2024" Examples.crumbs0).
    - apply reach_init. unfold Examples.crumbs0.
      repeat (apply List.Forall_cons; [reflexivity|]). apply List.Forall_nil.
    - unfold hostStep, Examples.stay, Examples.crumbs0.
      repeat (apply List.Forall_cons; [left; reflexivity|]). apply List.Forall_nil. }
  assert (H : hostStep Examples.crumbs1 (Examples.descend Examples.crumbs1)).
  { apply List.Forall_forall. intros e' He'. right.
    vm_compute in He'.
    repeat (destruct He' as [<-|He'];
            [first [ exists (List.nth 0 Examples.crumbs1 (Examples.crumb "" "")); split;
                       [vm_compute; tauto | reflexivity]
                   | exists (List.nth 1 Examples.crumbs1 (Examples.crumb "" "")); split;
                       [vm_compute; tauto | reflexivity]
                   | exists (List.nth 2 Examples.crumbs1 (Examples.crumb "" "")); split;
                       [vm_compute; tauto | reflexivity]
                   | exists (List.nth 3 Examples.crumbs1 (Examples.crumb "" "")); split;
                       [vm_compute; tauto | reflexivity] ]|]).
    destruct He'. }
  split.
  - refine (proj1 (crumbs_above_root_disabled "data/raw" Examples.descend
                     "data/raw/2024/q1" Examples.crumbs1
                     (Examples.crumb "/srv" "jp-BreadCrumbs-home amphi-BreadCrumbs-disabled")
                     R H eq_refl _) eq_refl).
    vm_compute. tauto.
  - refine (proj2 (crumbs_above_root_disabled "data/raw" Examples.descend
                     "data/raw/2024/q1" Examples.crumbs1
                     (Examples.crumb "data/raw" "jp-BreadCrumbs-item")
                     R H eq_refl _) eq_refl).
    vm_compute. tauto.
Defined.

End BreadcrumbsFacts.

(** ** The event routing, the selection and [init] *)

Module DialogFacts.

Import Js Voc JsFacts Contents BrowseFileDialog.

Lemma isOneOf_In (s : string) (l : list string) : isOneOf s l = true <-> In s l.
Proof. apply includes_In. Qed.

Lemma isOneOf_not_In (s : string) (l : list string) :
  ~ In s l -> isOneOf s l = false.
Proof.
  intros H. destruct (isOneOf s l) eqn:E; [|reflexivity].
  now apply isOneOf_In in E.
Qed.

Lemma truthyb_true (o : option bool) : truthyb o = true <-> o = Some true.
Proof.
  destruct o as [[|]|]; cbn; split; intros H;
    try reflexivity; try discriminate H.
Qed.

(** The loop of [getValue] is a filter of the selection. *)
Lemma getValue_filter (this : t) (st : Store) (selectedItems : list Ref) :
  getValue this st selectedItems =
  List.filter
    (fun item => truthyb (this_includeDir this) || negb (isDirectory (st item)))
    selectedItems.
Proof.
  unfold getValue.
  set (keep := fun item : Ref =>
         truthyb (this_includeDir this) || negb (isDirectory (st item))).
  enough (H : forall acc,
             List.fold_left
               (fun selected item =>
                  if truthyb (this_includeDir this)
                     || negb (String.eqb (type (st item)) "directory")
                  then (selected ++ [item])%list else selected)
               selectedItems acc
             = (acc ++ List.filter keep selectedItems)%list)
    by apply (H []).
  induction selectedItems as [|x l IH]; intros acc; cbn [List.fold_left List.filter].
  - now rewrite List.app_nil_r.
  - rewrite IH. unfold keep at 2, isDirectory.
    destruct (truthyb (this_includeDir this)
              || negb (String.eqb (type (st x)) "directory")).
    + now rewrite <- List.app_assoc.
    + reflexivity.
Qed.

(** C4. [getValue] returns the selected items of the directory listing,
    in their order, of which it keeps every item whose type is not
    ['directory'], and a directory exactly when [includeDir] is true. *)
Theorem getValue_selected (this : t) (st : Store) (selectedItems : list Ref) :
  getValue this st selectedItems =
    List.filter
      (fun item => truthyb (this_includeDir this) || negb (isDirectory (st item)))
      selectedItems
  /\ (forall item, In item (getValue this st selectedItems) -> In item selectedItems)
  /\ (forall item, In item selectedItems -> type (st item) <> "directory" ->
        In item (getValue this st selectedItems))
  /\ (forall item, In item selectedItems -> type (st item) = "directory" ->
        (In item (getValue this st selectedItems) <-> this_includeDir this = Some true)).
Proof.
  rewrite getValue_filter. split; [reflexivity|].
  split; [|split].
  - intros item H. now apply List.filter_In in H.
  - intros item Hin Hty. apply List.filter_In. split; [exact Hin|].
    unfold isDirectory. apply String.eqb_neq in Hty. rewrite Hty.
    apply orb_true_r.
  - intros item Hin Hty. rewrite List.filter_In. unfold isDirectory.
    rewrite Hty, String.eqb_refl. cbn [negb]. rewrite orb_false_r, truthyb_true.
    tauto.
Qed.

Lemma getValue_selected_witness :
  In 0 (getValue Examples.widget Examples.models [0; 1]).
Proof.
  apply (proj1 (proj2 (proj2 (getValue_selected Examples.widget Examples.models [0; 1])))).
  - now left.
  - discriminate.
Defined.

Lemma getValue_NoDup (this : t) (st : Store) (selectedItems : list Ref) :
  NoDup selectedItems -> NoDup (getValue this st selectedItems).
Proof. rewrite getValue_filter. apply List.NoDup_filter. Qed.

(** C3. For an event of type keydown, keyup, mousedown, mouseup or
    click, the event is forwarded to the saved handler of the directory
    listing exactly when [multiselect] is true or no modifier key (shift
    or meta) is pressed; with [multiselect] not true and a modifier
    pressed nothing at all is done with the event. *)
Theorem selection_events_routed (this : t) (host : Host) (event : Dom.Event) :
  In (Dom.type event) ["keydown"; "keyup"; "mousedown"; "mouseup"; "click"] ->
  (In (Forward event) (handleEvent this host event)
     <-> this_multiselect this = Some true \/ Dom.modifierPressed event = false)
  /\ (this_multiselect this = Some true \/ Dom.modifierPressed event = false ->
        handleEvent this host event = [Forward event])
  /\ (this_multiselect this <> Some true -> Dom.modifierPressed event = true ->
        handleEvent this host event = []).
Proof.
  intros Hty. apply isOneOf_In in Hty.
  unfold handleEvent. rewrite Hty.
  change (match Dom.iface event with
          | Dom.MouseEvent shiftKey metaKey => shiftKey || metaKey
          | Dom.KeyboardEvent shiftKey metaKey => shiftKey || metaKey
          | Dom.OtherEvent => false
          end) with (Dom.modifierPressed event).
  destruct (truthyb (this_multiselect this)) eqn:Hm;
    destruct (Dom.modifierPressed event) eqn:Hk; cbn [orb negb].
  - apply truthyb_true in Hm. repeat split; auto.
    + intros _. now left.
    + intros H. contradiction.
  - apply truthyb_true in Hm. repeat split; auto.
    + intros _. now left.
    + intros H. contradiction.
  - assert (Hn : this_multiselect this <> Some true).
    { intros H. apply truthyb_true in H. congruence. }
    repeat split.
    + intros [].
    + intros [H|H]; [contradiction | discriminate].
    + intros [H|H]; [contradiction | discriminate].
  - repeat split; auto.
    + intros _. now left.
    + discriminate.
Qed.

Lemma selection_events_routed_witness :
  handleEvent Examples.widget (Examples.bareHost Examples.fileItem) Examples.shiftClick = [].
Proof.
  apply (proj2 (proj2 (selection_events_routed Examples.widget
                         (Examples.bareHost Examples.fileItem) Examples.shiftClick
                         (or_intror (or_intror (or_intror (or_intror (or_introl eq_refl)))))))).
  - discriminate.
  - reflexivity.
Defined.

(** C5. A double click on an entry of type ['directory'] is forwarded to
    the saved handler of the directory listing, and nothing else is
    done: the listing opens the directory and the dialog is not
    accepted. *)
Theorem dblclick_directory_forwarded (this : t) (host : Host)
    (event : Dom.Event) (clickedItem : IModel) :
  Dom.type event = "dblclick" ->
  modelForClick host event = Some clickedItem ->
  type clickedItem = "directory" ->
  handleEvent this host event = [Forward event].
Proof.
  intros Hty Hitem Hdir. unfold handleEvent.
  rewrite Hty, Hitem, Hdir. reflexivity.
Qed.

Lemma dblclick_directory_forwarded_witness :
  handleEvent Examples.widget (Examples.bareHost Examples.dirItem) Examples.dblclick
  = [Forward Examples.dblclick].
Proof.
  apply (dblclick_directory_forwarded Examples.widget
           (Examples.bareHost Examples.dirItem) Examples.dblclick Examples.dirItem);
    reflexivity.
Defined.

(** The selector of the accept button. *)
Lemma accept_selector :
  "." ++ BROWSE_FILE_OPEN_CLASS ++ " .jp-mod-accept"
  = ".amphi-browseFileDialog-open .jp-mod-accept".
Proof. reflexivity. Qed.

(** A double click that is not on a directory. *)
Lemma dblclick_other (this : t) (host : Host) (event : Dom.Event) :
  Dom.type event = "dblclick" ->
  match modelForClick host event with
  | Some item => type item <> "directory"
  | None => True
  end ->
  handleEvent this host event =
  ([PreventDefault event; StopPropagation event]
   ++ (if truthyb (this_acceptFileOnDblClick this)
       then match querySelector host ".amphi-browseFileDialog-open .jp-mod-accept" with
            | Some okButton => [Click okButton]
            | None => []
            end
       else []))%list.
Proof.
  intros Hty Hitem. unfold handleEvent. rewrite Hty. cbn [isOneOf List.existsb].
  change ("dblclick" =? "keydown")%string with false.
  change ("dblclick" =? "keyup")%string with false.
  change ("dblclick" =? "mousedown")%string with false.
  change ("dblclick" =? "mouseup")%string with false.
  change ("dblclick" =? "click")%string with false.
  change ("dblclick" =? "dblclick")%string with true.
  cbn [orb]. rewrite accept_selector.
  destruct (modelForClick host event) as [item|]; [|reflexivity].
  apply String.eqb_neq in Hitem. now rewrite Hitem.
Qed.

(** C9. An event whose type is none of keydown, keyup, mousedown,
    mouseup, click and dblclick is handed to the saved handler of the
    directory listing and nothing else is done with it, so that the
    handler installed by the constructor does to the host what the
    original handler does. *)
Theorem other_events_as_original (this : t) (host : Host) (event : Dom.Event) :
  ~ In (Dom.type event)
       ["keydown"; "keyup"; "mousedown"; "mouseup"; "click"; "dblclick"] ->
  handleEvent this host event = [Forward event]
  /\ forall (W : Type) (dirListingHandleEvent preventDefault stopPropagation :
                         Dom.Event -> W -> W)
            (click : nat -> W -> W) (w : W),
       perform W dirListingHandleEvent preventDefault stopPropagation click
         (directoryListing_handleEvent this host event) w
       = dirListingHandleEvent event w.
Proof.
  intros Hty.
  assert (H : handleEvent this host event = [Forward event]).
  { unfold handleEvent. rewrite isOneOf_not_In.
    - destruct (String.eqb_spec (Dom.type event) "dblclick") as [E|E];
        [|reflexivity].
      exfalso. apply Hty. rewrite E. cbn. tauto.
    - intros H. apply Hty. cbn in H |- *. tauto. }
  split; [exact H|].
  intros. unfold directoryListing_handleEvent. rewrite H. reflexivity.
Qed.

Lemma other_events_as_original_witness :
  handleEvent Examples.widget (Examples.bareHost Examples.fileItem) Examples.scroll
  = [Forward Examples.scroll].
Proof.
  assert (Hty : ~ In (Dom.type Examples.scroll)
                    ["keydown"; "keyup"; "mousedown"; "mouseup"; "click"; "dblclick"]).
  { cbn. intros H.
    repeat (destruct H as [H|H]; [discriminate H|]). exact H. }
  exact (proj1 (other_events_as_original Examples.widget
                  (Examples.bareHost Examples.fileItem) Examples.scroll Hty)).
Defined.

(** C6. The navigation of [init], a path being given when the option is
    defined and not the empty string (the test [init] applies to it):
    with [startPath] given and [rootPath] undefined, or [startPath]
    starting with [rootPath], the model is sent to [startPath]; with
    [startPath] given and not starting with [rootPath], no [cd] is made
    at all, not even to [rootPath]; without [startPath] and with
    [rootPath] given, the model is sent to [rootPath]. *)
Theorem init_navigation (options : Options) :
  (forall sp, startPath options = Some sp -> sp <> "" ->
     (rootPath options = None
      \/ exists rp, rootPath options = Some rp /\ startsWith sp rp = true) ->
     snd (init options) = [sp])
  /\ (forall sp rp, startPath options = Some sp -> sp <> "" ->
       rootPath options = Some rp -> startsWith sp rp = false ->
       snd (init options) = [])
  /\ (forall rp, startPath options = None \/ startPath options = Some "" ->
       rootPath options = Some rp -> rp <> "" ->
       snd (init options) = [rp]).
Proof.
  cbn [init snd]. unfold navigation. split; [|split].
  - intros sp Hsp Hne Hroot. rewrite Hsp. cbn [truthy str].
    apply String.eqb_neq in Hne. rewrite Hne. cbn [negb].
    destruct Hroot as [->|(rp & -> & Hs)]; [reflexivity|].
    cbn [str]. rewrite indexOf_zero, Hs. now rewrite orb_true_r.
  - intros sp rp Hsp Hne Hrp Hs. rewrite Hsp, Hrp. cbn [truthy str].
    apply String.eqb_neq in Hne. rewrite Hne. cbn [negb].
    rewrite indexOf_zero, Hs.
    destruct rp as [|c rp]; [|reflexivity].
    unfold startsWith in Hs. now rewrite prefix_nil in Hs.
  - intros rp Hsp Hrp Hne. rewrite Hrp. apply String.eqb_neq in Hne.
    destruct Hsp as [->| ->]; cbn [truthy str String.eqb negb];
      now rewrite Hne.
Qed.

Lemma init_navigation_witness :
  snd (init Examples.initWithExtensions) = ["data/raw"].
Proof.
  apply (proj1 (init_navigation Examples.initWithExtensions) "data/raw").
  - reflexivity.
  - discriminate.
  - right. exists "data". split; reflexivity.
Defined.

(** What [init] does in the remaining cases. *)
Lemma init_no_navigation (options : Options) :
  truthy (startPath options) = false -> truthy (rootPath options) = false ->
  snd (init options) = [].
Proof.
  intros Hs Hr. cbn [init snd]. unfold navigation. now rewrite Hs, Hr.
Qed.

Lemma extensionFilter_directory (exts : list string) (m : IModel) :
  type m = "directory" -> extensionFilter exts m = true.
Proof. intros H. unfold extensionFilter. now rewrite H. Qed.

Lemma extensionFilter_file (exts : list string) (m : IModel) (last : string) :
  type m <> "directory" ->
  pop (split "."%char (name m)) = Some last ->
  (extensionFilter exts m = true <-> In ("." ++ toLowerCase last) exts).
Proof.
  intros Hty Hlast. unfold extensionFilter.
  apply String.eqb_neq in Hty. rewrite Hty, Hlast. apply includes_In.
Qed.

(** C7. With a list of extensions that is not empty, the filter [init]
    installs accepts every model of type ['directory'], and any other
    model exactly when the dot followed by the lowercased text after the
    last dot of its name is one of the extensions (for a name without a
    dot the code takes the whole name as that text).  With no list, or
    an empty one, the filter is [options.filter], and the filter that
    accepts every model when that is undefined too. *)
Theorem init_filter (options : Options) :
  (forall exts, extensions options = Some exts -> exts <> [] ->
     (forall m, type m = "directory" -> model_filter (fst (init options)) m = true)
     /\ (forall m pre suf, type m <> "directory" ->
          name m = pre ++ "." ++ suf -> dotless suf ->
          (model_filter (fst (init options)) m = true
           <-> In ("." ++ toLowerCase suf) exts))
     /\ (forall m, type m <> "directory" -> dotless (name m) ->
          (model_filter (fst (init options)) m = true
           <-> In ("." ++ toLowerCase (name m)) exts)))
  /\ (extensions options = None \/ extensions options = Some [] ->
      model_filter (fst (init options)) =
      match filter options with
      | Some f => f
      | None => fun _ => true
      end).
Proof.
  cbn [init fst constructor model_filter]. unfold filterFunction. split.
  - intros exts -> Hne.
    destruct exts as [|x exts]; [contradiction|]. cbn [List.length Nat.ltb Nat.leb].
    split; [|split].
    + intros m. apply extensionFilter_directory.
    + intros m pre suf Hty Hname Hsuf. apply extensionFilter_file; [exact Hty|].
      rewrite Hname. now apply pop_split_after.
    + intros m Hty Hname. apply extensionFilter_file; [exact Hty|].
      now apply pop_split_whole.
  - intros [->| ->]; reflexivity.
Qed.

Lemma init_filter_witness :
  model_filter (fst (init Examples.initWithExtensions)) Examples.fileItem = true.
Proof.
  assert (Hne : [".csv"; ".json"] <> ([] : list string)) by discriminate.
  apply (proj1 (proj2 (proj1 (init_filter Examples.initWithExtensions)
                         [".csv"; ".json"] eq_refl Hne))
           Examples.fileItem "Sales" "CSV").
  - discriminate.
  - reflexivity.
  - reflexivity.
  - now left.
Defined.

End DialogFacts.

(** ** showBrowseFileDialog *)

Module ShowFacts.

Import Js Voc JsFacts Contents.

Lemma replace_removeFirst (s p : string) : replace s p "" = removeFirst p s.
Proof. rewrite replace_firstOcc. reflexivity. Qed.

Lemma drop_whole (s : string) : drop (String.length s) s = "".
Proof. induction s as [|c s IH]; [reflexivity | exact IH]. Qed.

Lemma endsWith_slash (s : string) : endsWith s "/" = endsInSlash s.
Proof.
  unfold endsWith. cbn [String.length].
  induction s as [|c s IH]; [reflexivity|].
  destruct s as [|d s].
  - cbn. destruct (Ascii.eqb c "/"%char); reflexivity.
  - change (endsInSlash (String c (String d s))) with (endsInSlash (String d s)).
    rewrite <- IH. cbn [String.length Nat.leb Nat.sub andb drop].
    rewrite Nat.sub_0_r. reflexivity.
Qed.

Lemma relativeToPath_withSlash (rp : string) : relativeToPath rp = withSlash rp.
Proof. unfold relativeToPath, withSlash. now rewrite endsWith_slash. Qed.

Lemma setPath_other (st : Store) (r r' : Ref) (p : string) :
  r' <> r -> setPath st r p r' = st r'.
Proof.
  intros H. unfold setPath. apply Nat.eqb_neq in H. now rewrite H.
Qed.

Lemma setPath_same (st : Store) (r : Ref) (p : string) :
  setPath st r p r = {| name := name (st r); type := type (st r); path := p |}.
Proof. unfold setPath. now rewrite Nat.eqb_refl. Qed.

Lemma rewritePaths_cons (rel : string) (x : Ref) (v : list Ref) (st : Store) :
  rewritePaths rel (x :: v) st
  = rewritePaths rel v (setPath st x (replace (path (st x)) rel "")).
Proof. reflexivity. Qed.

(** The loop leaves the models outside the list alone. *)
Lemma rewritePaths_frame (rel : string) (v : list Ref) (st : Store) (r : Ref) :
  ~ In r v -> rewritePaths rel v st r = st r.
Proof.
  revert st. induction v as [|x v IH]; intros st H; [reflexivity|].
  rewrite rewritePaths_cons.
  rewrite IH by (intros K; apply H; now right).
  apply setPath_other. intros ->. apply H. now left.
Qed.

(** A model that the list names once is rewritten once. *)
Lemma rewritePaths_once (rel : string) (v : list Ref) (st : Store) (r : Ref) :
  NoDup v -> In r v ->
  rewritePaths rel v st r =
  {| name := name (st r); type := type (st r);
     path := replace (path (st r)) rel "" |}.
Proof.
  revert st. induction v as [|x v IH]; intros st Hnd Hin; [destruct Hin|].
  inversion Hnd as [|? ? Hx Hv]; subst.
  rewrite rewritePaths_cons.
  destruct (Nat.eq_dec r x) as [->|Hne].
  - rewrite rewritePaths_frame by exact Hx. apply setPath_same.
  - destruct Hin as [->|Hin]; [contradiction|].
    rewrite IH by assumption. now rewrite setPath_other.
Qed.

(** A model that the list names twice is rewritten twice: the entries
    of the list are references. *)
Lemma rewritePaths_twice (rel : string) (st : Store) (r : Ref) :
  path (rewritePaths rel [r; r] st r)
  = replace (replace (path (st r)) rel "") rel "".
Proof.
  rewrite !rewritePaths_cons. unfold rewritePaths. cbn [List.fold_left].
  rewrite !setPath_same. reflexivity.
Qed.

(** The world the dialog opens in. *)
Lemma show_unfold (launch : Dialog.t -> World -> Dialog.IResult * World)
    (options : IBrowseFileDialogOptions) (w : World) :
  showBrowseFileDialog launch options w =
  let d := newDialog (fst (BrowseFileDialog.init (initOptions options))) in
  {| cdCalls := snd (BrowseFileDialog.init (initOptions options));
     dialog := d;
     outcome := onLaunched options (fst (launch d (opened w)))
                  (snd (launch d (opened w))) |}.
Proof.
  unfold showBrowseFileDialog. cbn [BrowseFileDialog.init fst snd].
  match goal with |- context [launch ?d ?o] => destruct (launch d o) end.
  reflexivity.
Qed.

(** The callback of [then], case by case. *)
Lemma onLaunched_rewrites (options : IBrowseFileDialogOptions)
    (result : Dialog.IResult) (w : World) (rp : string) (v : list Ref) :
  rootPath options = Some rp -> rp <> "" ->
  Dialog.accept (Dialog.button result) = true ->
  Dialog.value result = Some v -> v <> [] ->
  exists w', onLaunched options result w = Resolved result w'
             /\ store w' = rewritePaths (relativeToPath rp) v (store w).
Proof.
  intros Hrp Hne Hacc Hv Hnil. unfold onLaunched.
  rewrite Hrp, Hacc, Hv. cbn [truthy str]. apply String.eqb_neq in Hne.
  rewrite Hne. cbn [negb andb].
  destruct v as [|x v]; [contradiction|]. cbn [List.length Nat.ltb Nat.leb].
  eexists. split; reflexivity.
Qed.

Lemma onLaunched_keeps (options : IBrowseFileDialogOptions)
    (result : Dialog.IResult) (w : World) :
  truthy (rootPath options) = false
  \/ Dialog.accept (Dialog.button result) = false
  \/ Dialog.value result = Some [] ->
  exists w', onLaunched options result w = Resolved result w'
             /\ store w' = store w.
Proof.
  intros H. unfold onLaunched.
  destruct (truthy (rootPath options)) eqn:Hr; cbn [andb];
    [|eexists; split; reflexivity].
  destruct (Dialog.accept (Dialog.button result)) eqn:Ha;
    [|eexists; split; reflexivity].
  destruct H as [H|[H|H]]; try discriminate H.
  rewrite H. cbn [List.length Nat.ltb Nat.leb]. eexists. split; reflexivity.
Qed.

(** C8. When the dialog has resolved, the paths of the returned items
    are rewritten when [rootPath] is set (defined and not empty), the
    accept button was pressed and the selection is not empty: the path
    of each returned item loses the first occurrence of [rootPath], taken
    with a slash appended unless it ends in one, and nothing else
    changes.  On cancel, with an empty selection or without [rootPath]
    every path is as it was.  The returned items are the distinct
    entries of the listing, so the list names none twice. *)
Theorem paths_relative_to_root
    (launch : Dialog.t -> World -> Dialog.IResult * World)
    (options : IBrowseFileDialogOptions) (w : World) :
  let d := newDialog (fst (BrowseFileDialog.init (initOptions options))) in
  let result := fst (launch d (opened w)) in
  let closed := snd (launch d (opened w)) in
  let run := showBrowseFileDialog launch options w in
  (forall rp v,
      rootPath options = Some rp -> rp <> "" ->
      Dialog.accept (Dialog.button result) = true ->
      Dialog.value result = Some v -> v <> [] -> NoDup v ->
      exists w',
        outcome run = Resolved result w'
        /\ (forall item, In item v ->
              store w' item =
              {| name := name (store closed item);
                 type := type (store closed item);
                 path := removeFirst (withSlash rp) (path (store closed item)) |})
        /\ (forall item, ~ In item v -> store w' item = store closed item))
  /\ (truthy (rootPath options) = false
      \/ Dialog.accept (Dialog.button result) = false
      \/ Dialog.value result = Some [] ->
      exists w', outcome run = Resolved result w' /\ store w' = store closed).
Proof.
  intros d result closed run. subst run. rewrite show_unfold.
  cbn [outcome]. fold d. fold result closed. split.
  - intros rp v Hrp Hne Hacc Hv Hnil Hnd.
    destruct (onLaunched_rewrites options result closed rp v Hrp Hne Hacc Hv Hnil)
      as (w' & Hout & Hst).
    exists w'. split; [exact Hout|]. rewrite Hst. split.
    + intros item Hin. rewrite rewritePaths_once by assumption.
      now rewrite replace_removeFirst, relativeToPath_withSlash.
    + intros item Hin. now apply rewritePaths_frame.
  - apply onLaunched_keeps.
Qed.

Lemma paths_relative_to_root_witness :
  exists w',
    outcome (showBrowseFileDialog Examples.pressSelect Examples.browseOptions Examples.world0)
    = Resolved {| Dialog.button := Dialog.okButton (Some "Select");
                  Dialog.value := Some [0; 1] |} w'
    /\ path (store w' 0) = "raw/Sales.CSV"
    /\ path (store w' 1) = "raw"
    /\ store w' 2 = Examples.models 2.
Proof.
  destruct (proj1 (paths_relative_to_root Examples.pressSelect Examples.browseOptions
                     Examples.world0) "data" [0; 1])
    as (w' & Hout & Hin & Hframe).
  - reflexivity.
  - discriminate.
  - reflexivity.
  - reflexivity.
  - discriminate.
  - repeat constructor; cbn; intuition discriminate.
  - exists w'. split; [exact Hout|].
    rewrite (Hin 0 (or_introl eq_refl)), (Hin 1 (or_intror (or_introl eq_refl))).
    rewrite Hframe by (cbn; intuition discriminate).
    repeat split.
Defined.

(** C10. [showBrowseFileDialog] creates a dialog of the host with the
    title ['Select a file'] and two buttons, the cancel button and an ok
    button with the label ['Select'], which is the only accepting one;
    its body is the widget [init] returns; and what its promise resolves
    with is the result of launching that dialog.  The promise resolves
    whenever the host keeps to its interface, an accepted result
    carrying the value of the body. *)
Theorem dialog_select_a_file
    (launch : Dialog.t -> World -> Dialog.IResult * World)
    (options : IBrowseFileDialogOptions) (w : World) :
  let run := showBrowseFileDialog launch options w in
  let launched := fst (launch (dialog run) (opened w)) in
  Dialog.title (dialog run) = "Select a file"
  /\ Dialog.buttons (dialog run) = [Dialog.cancelButton; Dialog.okButton (Some "Select")]
  /\ List.length (Dialog.buttons (dialog run)) = 2
  /\ Dialog.accept Dialog.cancelButton = false
  /\ Dialog.accept (Dialog.okButton (Some "Select")) = true
  /\ Dialog.label (Dialog.okButton (Some "Select")) = "Select"
  /\ (forall b, In b (Dialog.buttons (dialog run)) -> Dialog.accept b = true ->
        b = Dialog.okButton (Some "Select"))
  /\ Dialog.body (dialog run) = fst (BrowseFileDialog.init (initOptions options))
  /\ (forall result w', outcome run = Resolved result w' -> result = launched)
  /\ ((Dialog.accept (Dialog.button launched) = true ->
        Dialog.value launched <> None) ->
      exists w', outcome run = Resolved launched w').
Proof.
  intros run launched. subst launched run. rewrite show_unfold.
  cbn [dialog outcome].
  set (d := newDialog (fst (BrowseFileDialog.init (initOptions options)))).
  repeat match goal with |- _ /\ _ => split end; try reflexivity.
  - intros b [<-|[<-|[]]]; [discriminate | reflexivity].
  - intros result w'. unfold onLaunched.
    destruct (truthy (rootPath options) && Dialog.accept (Dialog.button (fst (launch d (opened w))))).
    + destruct (Dialog.value (fst (launch d (opened w)))) as [v|]; [|discriminate].
      destruct (0 <? List.length v)%nat; now intros [= <- _].
    + now intros [= <- _].
  - intros Hhost. unfold onLaunched.
    destruct (truthy (rootPath options)); cbn [andb]; [|eexists; reflexivity].
    destruct (Dialog.accept (Dialog.button (fst (launch d (opened w))))) eqn:Ha;
      [|eexists; reflexivity].
    destruct (Dialog.value (fst (launch d (opened w)))) as [v|];
      [|now destruct (Hhost eq_refl)].
    destruct (0 <? List.length v)%nat; eexists; reflexivity.
Qed.

Lemma dialog_select_a_file_witness :
  exists w',
    outcome (showBrowseFileDialog Examples.pressSelect Examples.browseOptions Examples.world0)
    = Resolved {| Dialog.button := Dialog.okButton (Some "Select");
                  Dialog.value := Some [0; 1] |} w'.
Proof.
  apply (proj2 (proj2 (proj2 (proj2 (proj2 (proj2 (proj2 (proj2 (proj2
           (dialog_select_a_file Examples.pressSelect Examples.browseOptions
              Examples.world0)))))))))).
  intros _. discriminate.
Defined.

(** The flag [showBrowseFileDialog] hands to the widget. *)
Lemma acceptFileOnDblClick_default
    (launch : Dialog.t -> World -> Dialog.IResult * World)
    (options : IBrowseFileDialogOptions) (w : World) :
  BrowseFileDialog.this_acceptFileOnDblClick
    (Dialog.body (dialog (showBrowseFileDialog launch options w)))
  = match acceptFileOnDblClick options with
    | Some v => v
    | None => Some true
    end.
Proof. rewrite show_unfold. reflexivity. Qed.

(** C2, as the code has it.  A double click on an entry that is not a
    directory is not forwarded to the saved handler of the directory
    listing; [preventDefault] and [stopPropagation] are called on it;
    and the accept button is clicked exactly when [acceptFileOnDblClick]
    is true and the selector
    ['.amphi-browseFileDialog-open .jp-mod-accept'] finds it in the
    document.  [showBrowseFileDialog] sets [acceptFileOnDblClick] to
    true whenever the options do not have that property. *)
Theorem dblclick_file_accepts (this : BrowseFileDialog.t)
    (host : BrowseFileDialog.Host) (event : Dom.Event) (clickedItem : IModel) :
  Dom.type event = "dblclick" ->
  BrowseFileDialog.modelForClick host event = Some clickedItem ->
  type clickedItem <> "directory" ->
  ~ In (BrowseFileDialog.Forward event) (BrowseFileDialog.handleEvent this host event)
  /\ In (BrowseFileDialog.PreventDefault event)
        (BrowseFileDialog.handleEvent this host event)
  /\ In (BrowseFileDialog.StopPropagation event)
        (BrowseFileDialog.handleEvent this host event)
  /\ (forall okButton,
        In (BrowseFileDialog.Click okButton)
          (BrowseFileDialog.handleEvent this host event)
        <-> BrowseFileDialog.this_acceptFileOnDblClick this = Some true
            /\ BrowseFileDialog.querySelector host
                 ".amphi-browseFileDialog-open .jp-mod-accept" = Some okButton)
  /\ (forall launch options w,
        acceptFileOnDblClick options = None ->
        BrowseFileDialog.this_acceptFileOnDblClick
          (Dialog.body (dialog (showBrowseFileDialog launch options w)))
        = Some true).
Proof.
  intros Hty Hitem Hfile.
  rewrite (DialogFacts.dblclick_other this host event Hty)
    by now rewrite Hitem.
  repeat match goal with |- _ /\ _ => split end.
  - intros H. apply List.in_app_or in H. destruct H as [[H|[H|[]]]|H];
      try discriminate H.
    destruct (truthyb (BrowseFileDialog.this_acceptFileOnDblClick this));
      [|destruct H].
    destruct (BrowseFileDialog.querySelector host _); [|destruct H].
    destruct H as [H|[]]. discriminate H.
  - now left.
  - right. now left.
  - intros okButton. rewrite <- DialogFacts.truthyb_true.
    destruct (truthyb (BrowseFileDialog.this_acceptFileOnDblClick this)).
    + destruct (BrowseFileDialog.querySelector host _) as [b|]; cbn.
      * split.
        -- intros [H|[H|[H|[]]]]; try discriminate H.
           injection H as ->. now split.
        -- intros [_ [= ->]]. right. right. now left.
      * split.
        -- intros [H|[H|[]]]; discriminate H.
        -- intros [_ H]. discriminate H.
    + cbn. split.
      * intros [H|[H|[]]]; discriminate H.
      * intros [H _]. discriminate H.
  - intros launch options w Hopt.
    now rewrite acceptFileOnDblClick_default, Hopt.
Qed.

Lemma dblclick_file_accepts_witness :
  In (BrowseFileDialog.Click 7)
    (BrowseFileDialog.handleEvent Examples.widget
       (Examples.openHost Examples.fileItem) Examples.dblclick).
Proof.
  assert (Hfile : type Examples.fileItem <> "directory") by discriminate.
  apply (proj2 (proj1 (proj2 (proj2 (proj2
           (dblclick_file_accepts Examples.widget (Examples.openHost Examples.fileItem)
              Examples.dblclick Examples.fileItem eq_refl eq_refl Hfile)))) 7)).
  split; reflexivity.
Defined.

(** C2 as it is worded, with the accept button clicked exactly when
    [acceptFileOnDblClick] is true, fails in a document where the
    selector finds no accept button: nothing is clicked there. *)
Lemma dblclick_file_without_button :
  ~ (forall (this : BrowseFileDialog.t) (host : BrowseFileDialog.Host)
            (event : Dom.Event) (clickedItem : IModel),
        Dom.type event = "dblclick" ->
        BrowseFileDialog.modelForClick host event = Some clickedItem ->
        type clickedItem <> "directory" ->
        ((exists okButton,
             In (BrowseFileDialog.Click okButton)
               (BrowseFileDialog.handleEvent this host event))
         <-> BrowseFileDialog.this_acceptFileOnDblClick this = Some true)).
Proof.
  intros H.
  assert (Hfile : type Examples.fileItem <> "directory") by discriminate.
  destruct (proj2 (H Examples.widget (Examples.bareHost Examples.fileItem)
                     Examples.dblclick Examples.fileItem eq_refl eq_refl Hfile)
              eq_refl) as [okButton Hin].
  cbn in Hin. destruct Hin as [Hin|[Hin|[]]]; discriminate Hin.
Qed.

End ShowFacts.

(** * Further properties of the code *)

(** ** More facts about the string operations *)

Module MoreJs.

Import Js Voc JsFacts.

(** *** trim *)

Lemma trimEnd_idem (s : string) : trimEnd (trimEnd s) = trimEnd s.
Proof.
  induction s as [|c s IH]; [reflexivity|].
  cbn [trimEnd]. destruct (trimEnd s) as [|d t] eqn:E.
  - destruct (isWhiteSpace c) eqn:Hc; [reflexivity|].
    cbn [trimEnd]. now rewrite Hc.
  - cbn [trimEnd] in IH |- *. rewrite IH. reflexivity.
Qed.

Lemma trimEnd_blank (s : string) : trimEnd (s ++ " ") = trimEnd s.
Proof.
  induction s as [|c s IH]; [reflexivity|].
  cbn [append trimEnd]. now rewrite IH.
Qed.

(** A string that does not begin with white space. *)
Lemma trimStart_head (s : string) :
  match trimStart s with
  | EmptyString => True
  | String c _ => isWhiteSpace c = false
  end.
Proof.
  induction s as [|c s IH]; [exact I|].
  cbn [trimStart]. destruct (isWhiteSpace c) eqn:Hc; [exact IH | exact Hc].
Qed.

Lemma trimStart_fixed (s : string) :
  match s with
  | EmptyString => True
  | String c _ => isWhiteSpace c = false
  end ->
  trimStart s = s.
Proof. destruct s as [|c s]; [reflexivity|]. cbn [trimStart]. now intros ->. Qed.

Lemma trimEnd_head (s : string) :
  match s with
  | EmptyString => True
  | String c _ => isWhiteSpace c = false
  end ->
  match trimEnd s with
  | EmptyString => True
  | String c _ => isWhiteSpace c = false
  end.
Proof.
  destruct s as [|c s]; [intros _; exact I|]. intros Hc.
  cbn [trimEnd]. destruct (trimEnd s); [now rewrite Hc | exact Hc].
Qed.

Lemma trim_idem (s : string) : trim (trim s) = trim s.
Proof.
  unfold trim.
  rewrite (trimStart_fixed (trimEnd (trimStart s)))
    by (apply trimEnd_head, trimStart_head).
  apply trimEnd_idem.
Qed.

Lemma trim_blank (s : string) : trim (s ++ " ") = trim s.
Proof.
  unfold trim. induction s as [|c s IH]; [reflexivity|].
  cbn [append trimStart]. destruct (isWhiteSpace c); [exact IH|].
  apply (trimEnd_blank (String c s)).
Qed.

(** *** toLowerCase *)

Lemma lowerChar_idem (c : ascii) : lowerChar (lowerChar c) = lowerChar c.
Proof.
  destruct c as [[] [] [] [] [] [] [] []]; vm_compute; reflexivity.
Qed.


Lemma toLowerCase_idem (s : string) : toLowerCase (toLowerCase s) = toLowerCase s.
Proof.
  induction s as [|c s IH]; [reflexivity|].
  cbn [toLowerCase]. now rewrite lowerChar_idem, IH.
Qed.



(** *** Occurrences *)

Lemma occurs_refl (s : string) : occurs s s.
Proof. exists "", "". cbn [append]. now rewrite append_nil_r. Qed.

Lemma occurs_suffix (p a : string) : occurs p (a ++ p).
Proof. exists a, "". now rewrite append_nil_r. Qed.

Lemma occurs_length (p s : string) :
  occurs p s -> (String.length p <= String.length s)%nat.
Proof. intros (a & b & ->). rewrite !length_append. lia. Qed.

Lemma firstOcc_here (p rest : string) : firstOcc (p ++ rest) p = Some 0.
Proof. apply firstOcc_prefix, prefix_append. Qed.

(** Removing a prefix. *)
Lemma replace_prefix (p rest : string) : replace (p ++ rest) p "" = rest.
Proof.
  rewrite replace_firstOcc, firstOcc_here. cbn [take append Nat.add].
  apply drop_append.
Qed.

End MoreJs.

(** ** More about the breadcrumbs *)

Module MoreBreadcrumbs.

Import Js Voc JsFacts MoreJs Dom BrowseFileDialogBreadcrumbs BreadcrumbsFacts.

Lemma marked_occurs (c : string) :
  (indexOf c DISABLED_CLASS =? -1)%Z = false -> occurs DISABLED_CLASS c.
Proof.
  intros H. rewrite indexOf_firstOcc in H.
  destruct (firstOcc c DISABLED_CLASS) as [n|] eqn:E; [|discriminate H].
  apply firstOcc_some in E.
  now exists (take n c), (drop (n + String.length DISABLED_CLASS) c).
Qed.

Lemma occurs_marked (c : string) :
  occurs DISABLED_CLASS c -> (indexOf c DISABLED_CLASS =? -1)%Z = false.
Proof.
  intros H. apply Z.eqb_neq. intros E. now apply indexOf_none in E.
Qed.

Lemma isCrumb_updateCrumb (rootPath : option string) (e : Element) :
  isCrumb (updateCrumb rootPath e) = isCrumb e.
Proof.
  destruct (updateCrumb_frame rootPath e) as [Ht Hc].
  unfold isCrumb. now rewrite Ht, Hc.
Qed.

Lemma title_updateCrumb (rootPath : option string) (e : Element) :
  title (updateCrumb rootPath e) = title e.
Proof.
  destruct (updateCrumb_frame rootPath e) as [Ht _].
  unfold title. now rewrite Ht.
Qed.

(** The elements the selector finds after an update are the updated
    crumbs of the document the host left. *)
Lemma crumbs_after_update (super : Document -> Document)
    (rootPath : option string) (localPath : string) (d : Document) (e : Element) :
  belowRoot rootPath localPath = true ->
  In e (querySelectorAll_crumbs (onUpdateRequest super rootPath localPath d)) ->
  exists e0, In e0 (super d) /\ isCrumb e0 = true /\ e = updateCrumb rootPath e0.
Proof.
  intros Hg Hin. unfold onUpdateRequest in Hin. rewrite Hg in Hin.
  apply List.filter_In in Hin. destruct Hin as [Hin Hc].
  apply List.in_map_iff in Hin. destruct Hin as (e0 & He & Hin).
  exists e0. destruct (isCrumb e0) eqn:Hc0.
  - now repeat split.
  - subst e0. congruence.
Qed.

(** X1. Whatever class names the document holds: after an update
    request whose guard holds, the class name of every crumb whose title
    does not start with the root contains the marker class. *)
Theorem crumbs_above_root_always_marked (super : Document -> Document)
    (rootPath : option string) (localPath : string) (d : Document) (e : Element) :
  belowRoot rootPath localPath = true ->
  In e (querySelectorAll_crumbs (onUpdateRequest super rootPath localPath d)) ->
  startsWith (title e) (str rootPath) = false ->
  occurs DISABLED_CLASS (className e).
Proof.
  intros Hg Hin Hs.
  destruct (crumbs_after_update _ _ _ _ _ Hg Hin) as (e0 & _ & _ & ->).
  rewrite title_updateCrumb in Hs.
  unfold updateCrumb. rewrite indexOf_zero, Hs.
  destruct (indexOf (className e0) DISABLED_CLASS =? -1)%Z eqn:E.
  - cbn [className setClassName].
    exists (className e0 ++ " "), "".
    rewrite append_nil_r, append_assoc. reflexivity.
  - now apply marked_occurs.
Qed.

Lemma crumbs_above_root_always_marked_witness :
  occurs DISABLED_CLASS "jp-BreadCrumbs-home amphi-BreadCrumbs-disabled".
Proof.
  apply (crumbs_above_root_always_marked Examples.stay (Some "data/raw")
           "data/raw/2024" Examples.crumbs0
           (Examples.crumb "/srv" "jp-BreadCrumbs-home amphi-BreadCrumbs-disabled")).
  - reflexivity.
  - vm_compute. tauto.
  - reflexivity.
Defined.

(** One crumb through the callback twice. *)
Lemma updateCrumb_idem (rootPath : option string) (e : Element) :
  wellMarked (className e) ->
  updateCrumb rootPath (updateCrumb rootPath e) = updateCrumb rootPath e.
Proof.
  intros Hw. destruct (startsWith (title e) (str rootPath)) eqn:Hs.
  - pose proof (updateCrumb_below rootPath e Hw Hs) as Hfree.
    unfold updateCrumb at 1. rewrite title_updateCrumb, indexOf_zero, Hs.
    rewrite replace_absent by now apply markerFree_occurs.
    unfold updateCrumb. rewrite indexOf_zero, Hs.
    cbn [className setClassName inCrumbs titleAttr].
    unfold setClassName. cbn [className inCrumbs titleAttr].
    now rewrite trim_idem.
  - destruct (updateCrumb_above rootPath e Hw Hs) as (c0 & _ & Hc).
    unfold updateCrumb at 1. rewrite title_updateCrumb, indexOf_zero, Hs.
    rewrite occurs_marked; [reflexivity|].
    rewrite Hc. exists (c0 ++ " "), "".
    now rewrite append_nil_r, append_assoc.
Qed.

(** X2. In a document the widget can see, an update request that
    follows another one, the host having changed nothing in between and
    the model standing where it stood, leaves every element as it is:
    the marker class is not piled up and not toggled. *)
Theorem update_request_idempotent (super : Document -> Document)
    (rootPath : option string) (localPath : string) (d : Document) :
  reachable rootPath d ->
  hostStep d (super d) ->
  onUpdateRequest (fun d' => d') rootPath localPath
    (onUpdateRequest super rootPath localPath d)
  = onUpdateRequest super rootPath localPath d.
Proof.
  intros Hr Hs.
  pose proof (hostStep_wellMarked _ _ (reachable_wellMarked _ _ Hr) Hs) as Hw.
  unfold onUpdateRequest. destruct (belowRoot rootPath localPath); [|reflexivity].
  rewrite List.map_map. apply List.map_ext_in. intros e He.
  rewrite List.Forall_forall in Hw.
  destruct (isCrumb e) eqn:Hc.
  - rewrite isCrumb_updateCrumb, Hc. apply updateCrumb_idem. now apply Hw.
  - now rewrite Hc.
Qed.

Lemma update_request_idempotent_witness :
  onUpdateRequest (fun d' => d') (Some "data/raw") "data/raw/2024" Examples.crumbs1
  = Examples.crumbs1.
Proof.
  apply (update_request_idempotent Examples.stay (Some "data/raw") "data/raw/2024"
           Examples.crumbs0).
  - apply reach_init. unfold Examples.crumbs0.
    repeat (apply List.Forall_cons; [reflexivity|]). apply List.Forall_nil.
  - unfold hostStep, Examples.stay, Examples.crumbs0.
    repeat (apply List.Forall_cons; [left; reflexivity|]). apply List.Forall_nil.
Defined.

(** X3. An update request touches nothing but the class names of the
    elements its selector finds: the document keeps the elements the
    host left, in their order, each with its title and its place, and an
    element the selector does not find is not changed at all. *)
Theorem update_request_frame (super : Document -> Document)
    (rootPath : option string) (localPath : string) (d : Document) :
  List.length (onUpdateRequest super rootPath localPath d) = List.length (super d)
  /\ List.map titleAttr (onUpdateRequest super rootPath localPath d)
     = List.map titleAttr (super d)
  /\ List.map inCrumbs (onUpdateRequest super rootPath localPath d)
     = List.map inCrumbs (super d)
  /\ (forall n e, List.nth_error (super d) n = Some e -> isCrumb e = false ->
        List.nth_error (onUpdateRequest super rootPath localPath d) n = Some e).
Proof.
  unfold onUpdateRequest. destruct (belowRoot rootPath localPath).
  - repeat split.
    + apply List.length_map.
    + rewrite List.map_map. apply List.map_ext. intros e.
      destruct (isCrumb e); [apply updateCrumb_frame | reflexivity].
    + rewrite List.map_map. apply List.map_ext. intros e.
      destruct (isCrumb e); [apply updateCrumb_frame | reflexivity].
    + intros n e Hn Hc. rewrite List.nth_error_map, Hn. cbn [option_map].
      now rewrite Hc.
  - repeat split. intros n e Hn _. exact Hn.
Qed.

Lemma update_request_frame_witness :
  List.nth_error
    (onUpdateRequest Examples.stay (Some "data/raw") "data/raw/2024"
       (Examples.separator :: Examples.crumbs0)) 0
  = Some Examples.separator.
Proof.
  apply (proj2 (proj2 (proj2 (update_request_frame Examples.stay (Some "data/raw")
                                "data/raw/2024"
                                (Examples.separator :: Examples.crumbs0))))
           0 Examples.separator); reflexivity.
Defined.

(** X4. In every document the widget can see, no element carries the
    marker class more than once. *)
Theorem marker_at_most_once (rootPath : option string) (d : Document) (e : Element) :
  reachable rootPath d -> In e d ->
  (List.count_occ string_dec (classList (className e)) DISABLED_CLASS <= 1)%nat.
Proof.
  intros Hr Hin. pose proof (reachable_wellMarked _ _ Hr) as Hw.
  rewrite List.Forall_forall in Hw. destruct (Hw e Hin) as [H|(c0 & H0 & ->)].
  - apply markerFree_not_carries in H.
    apply (List.count_occ_not_In string_dec) in H. rewrite H. lia.
  - unfold classList.
    change (" " ++ DISABLED_CLASS) with (String " "%char DISABLED_CLASS).
    rewrite splitBy_append by reflexivity.
    rewrite List.filter_app, List.count_occ_app.
    apply markerFree_not_carries in H0.
    apply (List.count_occ_not_In string_dec) in H0. unfold classList in H0.
    rewrite H0. vm_compute. lia.
Qed.

Lemma marker_at_most_once_witness :
  (List.count_occ string_dec
     (classList "jp-BreadCrumbs-home amphi-BreadCrumbs-disabled") DISABLED_CLASS <= 1)%nat.
Proof.
  apply (marker_at_most_once (Some "data/raw") Examples.crumbs1
           (Examples.crumb "/srv" "jp-BreadCrumbs-home amphi-BreadCrumbs-disabled")).
  - apply (reach_update (Some "data/raw") Examples.stay "data/raw/2024" Examples.crumbs0).
    + apply reach_init. unfold Examples.crumbs0.
      repeat (apply List.Forall_cons; [reflexivity|]). apply List.Forall_nil.
    + unfold hostStep, Examples.stay, Examples.crumbs0.
      repeat (apply List.Forall_cons; [left; reflexivity|]). apply List.Forall_nil.
  - vm_compute. tauto.
Defined.

(** X5. Without a root (undefined or empty), with an empty local path,
    or with a local path that does not start with the root, the update
    request is the update of the host and nothing more: no class name
    is written, so markers set earlier stay where they are. *)
Theorem update_request_outside_root (super : Document -> Document)
    (rootPath : option string) (localPath : string) (d : Document) :
  rootPath = None \/ rootPath = Some "" \/ localPath = ""
  \/ startsWith localPath (str rootPath) = false ->
  onUpdateRequest super rootPath localPath d = super d.
Proof.
  intros H. unfold onUpdateRequest, belowRoot. rewrite indexOf_zero.
  destruct H as [->|[->|[->|H]]]; cbn [truthy str String.eqb negb andb].
  - now rewrite andb_false_r.
  - now rewrite andb_false_r.
  - reflexivity.
  - now rewrite H, andb_false_r.
Qed.

Lemma update_request_outside_root_witness :
  onUpdateRequest Examples.stay (Some "data/raw") "tmp" Examples.crumbs1
  = Examples.crumbs1.
Proof.
  apply (update_request_outside_root Examples.stay (Some "data/raw") "tmp"
           Examples.crumbs1).
  right. right. right. reflexivity.
Defined.

(** *** The other classes of a crumb *)

Lemma asciiWhitespace_isWhiteSpace (c : ascii) :
  isAsciiWhitespace c = true -> isWhiteSpace c = true.
Proof.
  destruct c as [[] [] [] [] [] [] [] []]; vm_compute; intros H;
    first [reflexivity | discriminate H].
Qed.

Lemma plainSpaced_cons (c : ascii) (s : string) :
  plainSpaced (String c s) ->
  isWhiteSpace c = isAsciiWhitespace c /\ plainSpaced s.
Proof.
  unfold plainSpaced. cbn [noneOf]. intros H.
  apply andb_prop in H. destruct H as [Hc Hs]. split; [|exact Hs].
  unfold trimOnlySpace in Hc. apply negb_true_iff in Hc.
  destruct (isAsciiWhitespace c) eqn:Ha.
  - now apply asciiWhitespace_isWhiteSpace.
  - cbn [negb] in Hc. now rewrite andb_true_r in Hc.
Qed.

Lemma plainSpaced_append (a b : string) :
  plainSpaced (a ++ b) <-> plainSpaced a /\ plainSpaced b.
Proof.
  unfold plainSpaced. induction a as [|c a IH]; cbn [append noneOf].
  - tauto.
  - rewrite !andb_true_iff, IH. tauto.
Qed.

Lemma classList_cons_space (c : ascii) (s : string) :
  isAsciiWhitespace c = true -> classList (String c s) = classList s.
Proof. intros H. unfold classList. cbn [splitBy]. now rewrite H. Qed.

Lemma trimStart_plainSpaced (s : string) :
  plainSpaced s -> plainSpaced (trimStart s) /\ classList (trimStart s) = classList s.
Proof.
  induction s as [|c s IH]; intros H; [now split|].
  destruct (plainSpaced_cons _ _ H) as [Hc Hs]. cbn [trimStart].
  destruct (isWhiteSpace c) eqn:E; [|now split].
  destruct (IH Hs) as [H1 H2]. split; [exact H1|].
  rewrite H2. symmetry. apply classList_cons_space. congruence.
Qed.

Lemma splitBy_cons (f : ascii -> bool) (c : ascii) (s : string) :
  splitBy f (String c s)
  = if f c then "" :: splitBy f s
    else match splitBy f s with
         | [] => [String c ""]
         | t :: ts => String c t :: ts
         end.
Proof. reflexivity. Qed.

(** Trimming the end only removes empty pieces. *)
Lemma splitBy_trimEnd (s : string) :
  plainSpaced s ->
  exists k, splitBy isAsciiWhitespace s
            = (splitBy isAsciiWhitespace (trimEnd s) ++ List.repeat "" k)%list.
Proof.
  induction s as [|c s IH]; intros H; [now exists 0|].
  destruct (plainSpaced_cons _ _ H) as [Hc Hs].
  destruct (IH Hs) as [k Hk]. rewrite (splitBy_cons _ c s), Hk.
  cbn [trimEnd]. destruct (trimEnd s) as [|d t] eqn:E.
  - rewrite Hc. destruct (isAsciiWhitespace c) eqn:Ha.
    + now exists (S k).
    + exists k. rewrite splitBy_cons, Ha. reflexivity.
  - exists k. rewrite (splitBy_cons _ c (String d t)).
    destruct (isAsciiWhitespace c); [reflexivity|].
    destruct (splitBy isAsciiWhitespace (String d t)) as [|u us] eqn:Eu;
      [now destruct (splitBy_nonempty isAsciiWhitespace (String d t))|].
    reflexivity.
Qed.

Lemma filter_nonEmpty_repeat (l : list string) (k : nat) :
  List.filter nonEmpty (l ++ List.repeat "" k) = List.filter nonEmpty l.
Proof.
  rewrite List.filter_app.
  replace (List.filter nonEmpty (List.repeat "" k)) with (@nil string).
  - apply List.app_nil_r.
  - induction k as [|k IH]; [reflexivity | exact IH].
Qed.

Lemma classList_trim (s : string) :
  plainSpaced s -> classList (trim s) = classList s.
Proof.
  intros H. destruct (trimStart_plainSpaced s H) as [H1 H2].
  unfold trim. rewrite <- H2. unfold classList.
  destruct (splitBy_trimEnd _ H1) as [k Hk]. rewrite Hk.
  now rewrite filter_nonEmpty_repeat.
Qed.

Lemma classList_marked (c0 : string) :
  classList (c0 ++ " " ++ DISABLED_CLASS) = (classList c0 ++ [DISABLED_CLASS])%list.
Proof.
  unfold classList.
  change (" " ++ DISABLED_CLASS) with (String " "%char DISABLED_CLASS).
  rewrite splitBy_append by reflexivity.
  now rewrite List.filter_app.
Qed.

Lemma In_but_last (l : list string) (cls : string) :
  cls <> DISABLED_CLASS ->
  (In cls (l ++ [DISABLED_CLASS])%list <-> In cls l).
Proof.
  intros Hne. rewrite List.in_app_iff. cbn. split; [|tauto].
  intros [H|[H|[]]]; [exact H | congruence].
Qed.

(** X23. The widget writes no class but its own: for a crumb whose
    class name is one the widget meets (without the marker class, or
    with it appended once) and holds no white space that is not a class
    separator, the update keeps every class other than the marker class
    that the crumb carried, and adds none. *)
Theorem other_classes_kept (rootPath : option string) (e : Element) (cls : string) :
  wellMarked (className e) ->
  plainSpaced (className e) ->
  cls <> DISABLED_CLASS ->
  (carries (updateCrumb rootPath e) cls <-> carries e cls).
Proof.
  intros Hw Hp Hne. unfold carries.
  destruct (startsWith (title e) (str rootPath)) eqn:Hs.
  - assert (Hc : className (updateCrumb rootPath e)
                 = trim (replace (className e) DISABLED_CLASS "")).
    { unfold updateCrumb. now rewrite indexOf_zero, Hs. }
    rewrite Hc. destruct Hw as [Hf|(c0 & Hf & Hc0)].
    + rewrite replace_absent by now apply markerFree_occurs.
      now rewrite classList_trim.
    + rewrite Hc0 in Hp |- *. apply plainSpaced_append in Hp.
      destruct Hp as [Hp0 _].
      change (" " ++ DISABLED_CLASS) with (String " "%char DISABLED_CLASS).
      rewrite (replace_past _ _ marker_no_blank) by now apply markerFree_occurs.
      change (replace DISABLED_CLASS DISABLED_CLASS "") with "".
      change (String " "%char DISABLED_CLASS) with (" " ++ DISABLED_CLASS).
      change (c0 ++ String " "%char "") with (c0 ++ " ").
      rewrite trim_blank, classList_trim, classList_marked by exact Hp0.
      symmetry. now apply In_but_last.
  - unfold updateCrumb. rewrite indexOf_zero, Hs.
    destruct (indexOf (className e) DISABLED_CLASS =? -1)%Z; [|reflexivity].
    cbn [className setClassName].
    change (className e ++ " amphi-BreadCrumbs-disabled")
      with (className e ++ " " ++ DISABLED_CLASS).
    rewrite classList_marked. now apply In_but_last.
Qed.

Lemma other_classes_kept_witness :
  carries (updateCrumb (Some "data/raw")
             (Examples.crumb "data" "jp-BreadCrumbs-item jp-mod-hover"))
    "jp-mod-hover".
Proof.
  assert (Hne : "jp-mod-hover" <> DISABLED_CLASS) by discriminate.
  apply (other_classes_kept (Some "data/raw")
           (Examples.crumb "data" "jp-BreadCrumbs-item jp-mod-hover")
           "jp-mod-hover").
  - left. reflexivity.
  - reflexivity.
  - exact Hne.
  - vm_compute. tauto.
Defined.

End MoreBreadcrumbs.

(** ** More about the event routing, the selection and [init] *)

Module MoreDialog.

Import Js Voc JsFacts MoreJs Contents BrowseFileDialog DialogFacts.

(** The three shapes of what [handleEvent] does. *)
Lemma handleEvent_shapes (this : t) (host : Host) (event : Dom.Event) :
  handleEvent this host event = [Forward event]
  \/ (handleEvent this host event = []
      /\ In (Dom.type event) ["keydown"; "keyup"; "mousedown"; "mouseup"; "click"])
  \/ (Dom.type event = "dblclick"
      /\ match modelForClick host event with
         | Some item => type item <> "directory"
         | None => True
         end
      /\ handleEvent this host event =
         ([PreventDefault event; StopPropagation event]
          ++ (if truthyb (this_acceptFileOnDblClick this)
              then match querySelector host ".amphi-browseFileDialog-open .jp-mod-accept" with
                   | Some okButton => [Click okButton]
                   | None => []
                   end
              else []))%list).
Proof.
  destruct (isOneOf (Dom.type event)
              ["keydown"; "keyup"; "mousedown"; "mouseup"; "click"]) eqn:E5.
  - unfold handleEvent. rewrite E5.
    destruct (truthyb (this_multiselect this) || negb _); [now left|].
    right. left. split; [reflexivity | now apply isOneOf_In].
  - destruct (String.eqb_spec (Dom.type event) "dblclick") as [Hd|Hd].
    + destruct (modelForClick host event) as [item|] eqn:Hm.
      * destruct (String.eqb_spec (type item) "directory") as [Ht|Ht].
        -- left. unfold handleEvent. rewrite Hd, Hm, Ht. reflexivity.
        -- right. right. split; [exact Hd|]. split; [exact Ht|].
           apply dblclick_other; [exact Hd | now rewrite Hm].
      * right. right. split; [exact Hd|]. split; [exact I|].
        apply dblclick_other; [exact Hd | now rewrite Hm].
    + left. unfold handleEvent. rewrite E5.
      apply String.eqb_neq in Hd. now rewrite Hd.
Qed.

(** X6. A double click under which the listing finds no entry (a click
    on the empty part of the listing) is treated like one on a file: the
    event is cancelled, not forwarded, and with [acceptFileOnDblClick]
    the accept button found in the document is clicked. *)
Theorem dblclick_nowhere_accepts (this : t) (host : Host) (event : Dom.Event) :
  Dom.type event = "dblclick" ->
  modelForClick host event = None ->
  handleEvent this host event =
  ([PreventDefault event; StopPropagation event]
   ++ (if truthyb (this_acceptFileOnDblClick this)
       then match querySelector host ".amphi-browseFileDialog-open .jp-mod-accept" with
            | Some okButton => [Click okButton]
            | None => []
            end
       else []))%list.
Proof.
  intros Hty Hm. apply dblclick_other; [exact Hty | now rewrite Hm].
Qed.

Lemma dblclick_nowhere_accepts_witness :
  handleEvent Examples.widget Examples.emptyAreaHost Examples.dblclick
  = [PreventDefault Examples.dblclick; StopPropagation Examples.dblclick; Click 7].
Proof.
  apply (dblclick_nowhere_accepts Examples.widget Examples.emptyAreaHost
           Examples.dblclick); reflexivity.
Defined.

(** X7. What [handleEvent] never does: it forwards no event but the one
    it was given, and that one at most once; it clicks a button only on
    a double click that is not on a directory, with
    [acceptFileOnDblClick] true, and only the button the selector of the
    accept button finds; and an event it cancels with [preventDefault]
    or [stopPropagation] is a double click that it does not forward. *)
Theorem handleEvent_discipline (this : t) (host : Host) (event : Dom.Event) :
  (forall e, In (Forward e) (handleEvent this host event) ->
     e = event /\ handleEvent this host event = [Forward event])
  /\ (forall b, In (Click b) (handleEvent this host event) ->
        Dom.type event = "dblclick"
        /\ this_acceptFileOnDblClick this = Some true
        /\ querySelector host ".amphi-browseFileDialog-open .jp-mod-accept" = Some b
        /\ (forall item, modelForClick host event = Some item ->
              type item <> "directory"))
  /\ (forall e, In (PreventDefault e) (handleEvent this host event)
                \/ In (StopPropagation e) (handleEvent this host event) ->
        e = event /\ Dom.type event = "dblclick"
        /\ ~ In (Forward event) (handleEvent this host event)).
Proof.
  destruct (handleEvent_shapes this host event) as [H|[[H _]|(Hd & Hm & H)]];
    rewrite H.
  - split; [|split].
    + intros e [[= <-]|[]]. now split.
    + intros b [Hb|[]]. discriminate Hb.
    + intros e [[He|[]]|[He|[]]]; discriminate He.
  - split; [|split].
    + intros e [].
    + intros b [].
    + intros e [[]|[]].
  - assert (Hnf : forall e, ~ In (Forward e)
              ([PreventDefault event; StopPropagation event]
               ++ (if truthyb (this_acceptFileOnDblClick this)
                   then match querySelector host
                                ".amphi-browseFileDialog-open .jp-mod-accept" with
                        | Some okButton => [Click okButton]
                        | None => []
                        end
                   else []))%list).
    { intros e He. apply List.in_app_or in He.
      destruct He as [[He|[He|[]]]|He]; try discriminate He.
      destruct (truthyb _); [|destruct He].
      destruct (querySelector host _); [|destruct He].
      destruct He as [He|[]]. discriminate He. }
    split; [|split].
    + intros e He. now apply Hnf in He.
    + intros b Hb. apply List.in_app_or in Hb.
      destruct Hb as [[Hb|[Hb|[]]]|Hb]; try discriminate Hb.
      destruct (truthyb (this_acceptFileOnDblClick this)) eqn:Ha; [|destruct Hb].
      destruct (querySelector host _) as [b'|] eqn:Hq; [|destruct Hb].
      destruct Hb as [[= ->]|[]]. apply truthyb_true in Ha.
      repeat split; try assumption.
      intros item Hi. now rewrite Hi in Hm.
    + intros e He. split; [|split; [exact Hd | apply Hnf]].
      destruct He as [He|He]; apply List.in_app_or in He;
        destruct He as [[He|[He|[]]]|He]; try discriminate He;
        try (now injection He);
        destruct (truthyb _); try (now destruct He);
        destruct (querySelector host _); try (now destruct He);
        destruct He as [He|[]]; discriminate He.
Qed.

Lemma handleEvent_discipline_witness :
  Dom.type Examples.dblclick = "dblclick"
  /\ this_acceptFileOnDblClick Examples.widget = Some true
  /\ querySelector (Examples.openHost Examples.fileItem)
       ".amphi-browseFileDialog-open .jp-mod-accept" = Some 7
  /\ (forall item,
        modelForClick (Examples.openHost Examples.fileItem) Examples.dblclick
        = Some item -> type item <> "directory").
Proof.
  apply (proj1 (proj2 (handleEvent_discipline Examples.widget
                         (Examples.openHost Examples.fileItem) Examples.dblclick)) 7).
  right. right. now left.
Defined.

(** X8. With [multiselect] true the dialog changes the handling of
    double clicks only: for every event of another type the handler the
    constructor installs does to the host what the original handler of
    the directory listing does. *)
Theorem multiselect_keeps_listing (this : t) (host : Host) (event : Dom.Event) :
  this_multiselect this = Some true ->
  Dom.type event <> "dblclick" ->
  handleEvent this host event = [Forward event]
  /\ forall (W : Type) (dirListingHandleEvent preventDefault stopPropagation :
                         Dom.Event -> W -> W)
            (click : nat -> W -> W) (w : W),
       perform W dirListingHandleEvent preventDefault stopPropagation click
         (directoryListing_handleEvent this host event) w
       = dirListingHandleEvent event w.
Proof.
  intros Hm Hd.
  assert (H : handleEvent this host event = [Forward event]).
  { unfold handleEvent. rewrite Hm. cbn [truthyb orb].
    apply String.eqb_neq in Hd. rewrite Hd.
    destruct (isOneOf _ _); reflexivity. }
  split; [exact H|].
  intros. unfold directoryListing_handleEvent. now rewrite H.
Qed.

Lemma multiselect_keeps_listing_witness :
  handleEvent Examples.multiWidget (Examples.bareHost Examples.fileItem)
    Examples.shiftClick
  = [Forward Examples.shiftClick].
Proof.
  assert (Hd : Dom.type Examples.shiftClick <> "dblclick") by discriminate.
  exact (proj1 (multiselect_keeps_listing Examples.multiWidget
                  (Examples.bareHost Examples.fileItem) Examples.shiftClick
                  eq_refl Hd)).
Defined.

(** X9. With [includeDir] true, [getValue] returns the selection of the
    directory listing as it is. *)
Theorem getValue_with_includeDir (this : t) (st : Store) (selectedItems : list Ref) :
  this_includeDir this = Some true ->
  getValue this st selectedItems = selectedItems.
Proof.
  intros H. rewrite getValue_filter, H. cbn [truthyb orb].
  induction selectedItems as [|x l IH]; [reflexivity|].
  cbn [List.filter]. now rewrite IH.
Qed.

Lemma getValue_with_includeDir_witness :
  getValue Examples.multiWidget Examples.models [1; 0; 2] = [1; 0; 2].
Proof.
  apply (getValue_with_includeDir Examples.multiWidget Examples.models [1; 0; 2]).
  reflexivity.
Defined.

(** X10. Without [includeDir] (false or undefined), [getValue] returns
    no directory, and it returns a selection without directories as it
    is. *)
Theorem getValue_without_includeDir (this : t) (st : Store)
    (selectedItems : list Ref) :
  this_includeDir this <> Some true ->
  Forall (fun item => type (st item) <> "directory")
    (getValue this st selectedItems)
  /\ (Forall (fun item => type (st item) <> "directory") selectedItems ->
      getValue this st selectedItems = selectedItems).
Proof.
  intros H. rewrite getValue_filter.
  assert (Hf : truthyb (this_includeDir this) = false).
  { destruct (truthyb (this_includeDir this)) eqn:E; [|reflexivity].
    apply truthyb_true in E. contradiction. }
  rewrite Hf. cbn [orb]. split.
  - apply List.Forall_forall. intros item Hin.
    apply List.filter_In in Hin. destruct Hin as [_ Hd].
    unfold isDirectory in Hd. apply negb_true_iff in Hd.
    now apply String.eqb_neq.
  - induction 1 as [|x l Hx _ IH]; [reflexivity|].
    cbn [List.filter]. unfold isDirectory at 1.
    apply String.eqb_neq in Hx. rewrite Hx. cbn [negb]. now rewrite IH.
Qed.

Lemma getValue_without_includeDir_witness :
  Forall (fun item => type (Examples.models item) <> "directory")
    (getValue Examples.widget Examples.models [1; 0; 2]).
Proof.
  assert (H : this_includeDir Examples.widget <> Some true) by discriminate.
  exact (proj1 (getValue_without_includeDir Examples.widget Examples.models
                  [1; 0; 2] H)).
Defined.

(** X11. [getValue] goes through the selection from its first item to
    its last: the value of a selection made of two parts is the value of
    the first part followed by the value of the second, and the value of
    a selection of distinct items has distinct items. *)
Theorem getValue_in_order (this : t) (st : Store) (first second : list Ref) :
  getValue this st (first ++ second)%list
  = (getValue this st first ++ getValue this st second)%list
  /\ (NoDup (first ++ second)%list ->
      NoDup (getValue this st (first ++ second)%list)).
Proof.
  split.
  - rewrite !getValue_filter. apply List.filter_app.
  - rewrite getValue_filter. apply List.NoDup_filter.
Qed.

Lemma getValue_in_order_witness :
  NoDup (getValue Examples.multiWidget Examples.models ([1; 0] ++ [2])%list).
Proof.
  apply (proj2 (getValue_in_order Examples.multiWidget Examples.models [1; 0] [2])).
  repeat constructor; cbn; intuition discriminate.
Defined.

Lemma prefix_refl (s : string) : String.prefix s s = true.
Proof.
  rewrite <- (append_nil_r s) at 2. apply prefix_append.
Qed.

(** X12. [init] sends the model to at most one directory; the
    directory is [startPath] or, failing that, [rootPath], never the
    empty path; and with a root set the directory starts with the root:
    [init] does not navigate out of the root. *)
Theorem init_navigates_within_root (options : Options) :
  (List.length (snd (init options)) <= 1)%nat
  /\ (forall p, In p (snd (init options)) ->
        p <> ""
        /\ (startPath options = Some p
            \/ (truthy (startPath options) = false /\ rootPath options = Some p))
        /\ (truthy (rootPath options) = true ->
            startsWith p (str (rootPath options)) = true)).
Proof.
  cbn [init snd]. unfold navigation.
  destruct (startPath options) as [sp|] eqn:Hsp; cbn [truthy str].
  - destruct (String.eqb_spec sp "") as [->|Hne]; cbn [negb].
    + destruct (rootPath options) as [rp|] eqn:Hrp; cbn [truthy str].
      * destruct (String.eqb_spec rp "") as [->|Hr]; cbn [negb List.length].
        -- split; [lia | intros p []].
        -- split; [lia|]. intros p [<-|[]]. repeat split; auto.
           intros _. apply prefix_refl.
      * cbn [List.length]. split; [lia | intros p []].
    + destruct (negb (truthy (rootPath options))
                || (indexOf sp (str (rootPath options)) =? 0)%Z) eqn:E;
        cbn [List.length].
      * split; [lia|]. intros p [<-|[]]. repeat split; auto.
        intros Hr. rewrite Hr, indexOf_zero in E. exact E.
      * split; [lia | intros p []].
  - destruct (rootPath options) as [rp|] eqn:Hrp; cbn [truthy str].
    + destruct (String.eqb_spec rp "") as [->|Hr]; cbn [negb List.length].
      * split; [lia | intros p []].
      * split; [lia|]. intros p [<-|[]]. repeat split; auto.
        intros _. apply prefix_refl.
    + cbn [List.length]. split; [lia | intros p []].
Qed.

Lemma init_navigates_within_root_witness :
  startsWith "data/raw" "data" = true.
Proof.
  apply (proj2 (proj2 (proj2 (init_navigates_within_root Examples.initWithExtensions)
                         "data/raw" (or_introl eq_refl)))).
  reflexivity.
Defined.




Lemma toLowerCase_append (a b : string) :
  toLowerCase (a ++ b) = toLowerCase a ++ toLowerCase b.
Proof. induction a as [|c a IH]; [reflexivity|]. cbn. now rewrite IH. Qed.

(** X14. The entries of [extensions] are compared as they are with the
    lowered extension of the file: a file is accepted only through an
    entry that begins with a dot and has no upper-case letter, so an
    entry such as [".CSV"] or ["csv"] accepts no file. *)
Theorem extension_entries_lower_and_dotted (options : Options) (exts : list string)
    (m : IModel) :
  extensions options = Some exts -> exts <> [] ->
  type m <> "directory" ->
  model_filter (fst (init options)) m = true ->
  exists ext, In ext exts /\ startsWith ext "." = true /\ toLowerCase ext = ext.
Proof.
  intros He Hne Hty. cbn [init fst constructor model_filter].
  unfold filterFunction. rewrite He.
  destruct exts as [|x exts]; [contradiction|]. cbn [List.length Nat.ltb Nat.leb].
  unfold extensionFilter. apply String.eqb_neq in Hty. rewrite Hty.
  destruct (pop (split "."%char (name m))) as [last|]; [|discriminate].
  intros H. apply includes_In in H.
  exists ("." ++ toLowerCase last). split; [exact H|]. split.
  - apply (prefix_append "." (toLowerCase last)).
  - rewrite toLowerCase_append, toLowerCase_idem. reflexivity.
Qed.

Lemma extension_entries_lower_and_dotted_witness :
  exists ext, In ext [".csv"; ".json"] /\ startsWith ext "." = true
              /\ toLowerCase ext = ext.
Proof.
  assert (Hne : [".csv"; ".json"] <> ([] : list string)) by discriminate.
  assert (Hty : type Examples.fileItem <> "directory") by discriminate.
  exact (extension_entries_lower_and_dotted Examples.initWithExtensions
           [".csv"; ".json"] Examples.fileItem eq_refl Hne Hty eq_refl).
Defined.

End MoreDialog.

(** ** More about showBrowseFileDialog *)

Module MoreShow.

Import Js Voc JsFacts MoreJs Contents ShowFacts.

(** X15. [showBrowseFileDialog] does not hand [options.extensions] on to
    [init]: whatever extensions the caller lists, the filter of the
    dialog is [options.filter], and the filter that accepts every model
    when that is undefined. *)
Theorem show_ignores_extensions
    (launch : Dialog.t -> World -> Dialog.IResult * World)
    (options : IBrowseFileDialogOptions) (w : World) :
  BrowseFileDialog.model_filter
    (Dialog.body (dialog (showBrowseFileDialog launch options w)))
  = match filter options with
    | Some f => f
    | None => fun _ => true
    end.
Proof. rewrite show_unfold. reflexivity. Qed.

Lemma open_class_no_blank :
  ~ In " "%char (list_ascii_of_string BrowseFileDialog.BROWSE_FILE_OPEN_CLASS).
Proof.
  cbn. intros H.
  repeat (destruct H as [H|H]; [discriminate H|]). exact H.
Qed.

Lemma classList_opened (c : string) :
  Dom.classList (c ++ " " ++ BrowseFileDialog.BROWSE_FILE_OPEN_CLASS)
  = (Dom.classList c ++ [BrowseFileDialog.BROWSE_FILE_OPEN_CLASS])%list.
Proof.
  unfold Dom.classList.
  change (" " ++ BrowseFileDialog.BROWSE_FILE_OPEN_CLASS)
    with (String " "%char BrowseFileDialog.BROWSE_FILE_OPEN_CLASS).
  rewrite splitBy_append by reflexivity.
  now rewrite List.filter_app.
Qed.

(** X16. The dialog is launched in a world where [document.body]
    carries the class [amphi-browseFileDialog-open], after the classes it
    carried before, all of which it keeps. *)
Theorem body_open_while_launched (w : World) :
  Dom.classList (bodyClassName (opened w))
  = (Dom.classList (bodyClassName w) ++ ["amphi-browseFileDialog-open"])%list
  /\ forall launch options,
       outcome (showBrowseFileDialog launch options w)
       = onLaunched options
           (fst (launch (dialog (showBrowseFileDialog launch options w)) (opened w)))
           (snd (launch (dialog (showBrowseFileDialog launch options w)) (opened w))).
Proof.
  split.
  - apply classList_opened.
  - intros launch options. rewrite show_unfold. reflexivity.
Qed.

Lemma onLaunched_body (options : IBrowseFileDialogOptions)
    (result result' : Dialog.IResult) (w w' : World) :
  onLaunched options result w = Resolved result' w' ->
  bodyClassName w'
  = trim (replace (bodyClassName w) BrowseFileDialog.BROWSE_FILE_OPEN_CLASS "").
Proof.
  unfold onLaunched.
  destruct (truthy (rootPath options) && Dialog.accept (Dialog.button result)).
  - destruct (Dialog.value result) as [v|]; [|discriminate].
    destruct (0 <? List.length v)%nat; now intros [= _ <-].
  - now intros [= _ <-].
Qed.

(** X17. Opening and closing restore the class name of [document.body]:
    if it did not contain the open class before, and nothing but the
    dialog function wrote it while the dialog was open, then after the
    dialog has resolved it is the class name from before, trimmed. *)
Theorem body_class_restored
    (launch : Dialog.t -> World -> Dialog.IResult * World)
    (options : IBrowseFileDialogOptions) (w : World)
    (result : Dialog.IResult) (w' : World) :
  ~ occurs BrowseFileDialog.BROWSE_FILE_OPEN_CLASS (bodyClassName w) ->
  bodyClassName
    (snd (launch (dialog (showBrowseFileDialog launch options w)) (opened w)))
  = bodyClassName (opened w) ->
  outcome (showBrowseFileDialog launch options w) = Resolved result w' ->
  bodyClassName w' = trim (bodyClassName w).
Proof.
  rewrite show_unfold. cbn [dialog outcome]. intros Hfree Hkept Hout.
  apply onLaunched_body in Hout. rewrite Hout, Hkept. cbn [opened bodyClassName].
  change (" " ++ BrowseFileDialog.BROWSE_FILE_OPEN_CLASS)
    with (String " "%char BrowseFileDialog.BROWSE_FILE_OPEN_CLASS).
  rewrite (replace_past _ _ open_class_no_blank) by exact Hfree.
  change (replace BrowseFileDialog.BROWSE_FILE_OPEN_CLASS
            BrowseFileDialog.BROWSE_FILE_OPEN_CLASS "") with "".
  apply trim_blank.
Qed.

Lemma body_class_restored_witness :
  exists w',
    outcome (showBrowseFileDialog Examples.pressSelect Examples.browseOptions
               Examples.world0)
    = Resolved {| Dialog.button := Dialog.okButton (Some "Select");
                  Dialog.value := Some [0; 1] |} w'
    /\ bodyClassName w' = "jp-mod-dark".
Proof.
  eexists. split.
  - rewrite show_unfold. reflexivity.
  - apply (body_class_restored Examples.pressSelect Examples.browseOptions
             Examples.world0
             {| Dialog.button := Dialog.okButton (Some "Select");
                Dialog.value := Some [0; 1] |}).
    + apply indexOf_none. reflexivity.
    + reflexivity.
    + rewrite show_unfold. reflexivity.
Defined.



(** X19. An accepted item whose path lies under the root comes back
    with its path relative to the root: from a path that is the root, a
    slash and a rest, the rest is left.  The selection names no item
    twice. *)
Theorem paths_below_root_relative
    (launch : Dialog.t -> World -> Dialog.IResult * World)
    (options : IBrowseFileDialogOptions) (w : World)
    (rp : string) (v : list Ref) (item : Ref) (rest : string) :
  let d := newDialog (fst (BrowseFileDialog.init (initOptions options))) in
  rootPath options = Some rp -> rp <> "" ->
  Dialog.accept (Dialog.button (fst (launch d (opened w)))) = true ->
  Dialog.value (fst (launch d (opened w))) = Some v ->
  NoDup v -> In item v ->
  path (store (snd (launch d (opened w))) item) = withSlash rp ++ rest ->
  exists w',
    outcome (showBrowseFileDialog launch options w)
    = Resolved (fst (launch d (opened w))) w'
    /\ path (store w' item) = rest.
Proof.
  intros d Hrp Hne Hacc Hv Hnd Hin Hpath.
  assert (Hnil : v <> []) by (intros ->; destruct Hin).
  rewrite show_unfold. cbn [outcome]. fold d.
  destruct (onLaunched_rewrites options _ (snd (launch d (opened w))) rp v
              Hrp Hne Hacc Hv Hnil) as (w' & Hout & Hst).
  exists w'. split; [exact Hout|].
  rewrite Hst, rewritePaths_once by assumption. cbn [path].
  rewrite relativeToPath_withSlash, Hpath. apply replace_prefix.
Qed.

Lemma paths_below_root_relative_witness :
  exists w',
    outcome (showBrowseFileDialog Examples.pressSelect Examples.browseOptions
               Examples.world0)
    = Resolved {| Dialog.button := Dialog.okButton (Some "Select");
                  Dialog.value := Some [0; 1] |} w'
    /\ path (store w' 0) = "raw/Sales.CSV".
Proof.
  apply (paths_below_root_relative Examples.pressSelect Examples.browseOptions
           Examples.world0 "data" [0; 1] 0 "raw/Sales.CSV").
  - reflexivity.
  - discriminate.
  - reflexivity.
  - reflexivity.
  - repeat constructor; cbn; intuition discriminate.
  - now left.
  - reflexivity.
Defined.

(** X20. An accepted item whose path does not contain the root followed
    by a slash keeps its path.  So does the root directory itself, when
    it is selected: its path is the root without the slash, and it does
    not become the empty path. *)
Theorem paths_outside_root_kept
    (launch : Dialog.t -> World -> Dialog.IResult * World)
    (options : IBrowseFileDialogOptions) (w : World)
    (rp : string) (v : list Ref) (item : Ref) :
  let d := newDialog (fst (BrowseFileDialog.init (initOptions options))) in
  rootPath options = Some rp -> rp <> "" ->
  Dialog.accept (Dialog.button (fst (launch d (opened w)))) = true ->
  Dialog.value (fst (launch d (opened w))) = Some v ->
  v <> [] ->
  ~ occurs (withSlash rp) (path (store (snd (launch d (opened w))) item))
  \/ (path (store (snd (launch d (opened w))) item) = rp /\ endsInSlash rp = false) ->
  exists w',
    outcome (showBrowseFileDialog launch options w)
    = Resolved (fst (launch d (opened w))) w'
    /\ path (store w' item) = path (store (snd (launch d (opened w))) item).
Proof.
  intros d Hrp Hne Hacc Hv Hnil Hout0.
  assert (Habs : ~ occurs (withSlash rp)
                   (path (store (snd (launch d (opened w))) item))).
  { destruct Hout0 as [H|[Hp Hs]]; [exact H|].
    rewrite Hp. unfold withSlash. rewrite Hs. intros Ho.
    apply occurs_length in Ho. rewrite length_append in Ho. cbn in Ho. lia. }
  rewrite show_unfold. cbn [outcome]. fold d.
  destruct (onLaunched_rewrites options _ (snd (launch d (opened w))) rp v
              Hrp Hne Hacc Hv Hnil) as (w' & Hout & Hst).
  exists w'. split; [exact Hout|]. rewrite Hst, relativeToPath_withSlash.
  clear Hst Hout. revert Habs.
  generalize (store (snd (launch d (opened w)))). clear.
  induction v as [|x v IH]; intros st Habs; [reflexivity|].
  rewrite rewritePaths_cons.
  destruct (Nat.eq_dec item x) as [->|Hx].
  - rewrite IH.
    + rewrite setPath_same. cbn [path]. now apply replace_absent.
    + rewrite setPath_same. cbn [path]. now rewrite replace_absent.
  - rewrite IH; now rewrite setPath_other.
Qed.

Lemma paths_outside_root_kept_witness :
  exists w',
    outcome (showBrowseFileDialog Examples.pressRoot Examples.browseOptions
               Examples.world0)
    = Resolved {| Dialog.button := Dialog.okButton (Some "Select");
                  Dialog.value := Some [3] |} w'
    /\ path (store w' 3) = "data".
Proof.
  apply (paths_outside_root_kept Examples.pressRoot Examples.browseOptions
           Examples.world0 "data" [3] 3).
  - reflexivity.
  - discriminate.
  - reflexivity.
  - reflexivity.
  - discriminate.
  - right. split; reflexivity.
Defined.

(** X21. The loop over the returned items rewrites the path of a model
    once for every time the list names it, and touches nothing else: no
    name, no type, and no model the list does not name. *)
Theorem rewritePaths_per_occurrence (rel : string) (v : list Ref) (st : Store)
    (r : Ref) :
  name (rewritePaths rel v st r) = name (st r)
  /\ type (rewritePaths rel v st r) = type (st r)
  /\ path (rewritePaths rel v st r)
     = Nat.iter (List.count_occ Nat.eq_dec v r) (fun p => replace p rel "")
         (path (st r)).
Proof.
  revert st. induction v as [|x v IH]; intros st; [now repeat split|].
  rewrite rewritePaths_cons.
  destruct (IH (setPath st x (replace (path (st x)) rel ""))) as (Hn & Ht & Hp).
  rewrite Hn, Ht, Hp. clear Hn Ht Hp IH.
  destruct (Nat.eq_dec x r) as [->|Hne].
  - rewrite setPath_same, List.count_occ_cons_eq by reflexivity. cbn [name type path].
    repeat split. now rewrite Nat.iter_succ_r.
  - rewrite setPath_other by congruence.
    rewrite List.count_occ_cons_neq by exact Hne. now repeat split.
Qed.

(** X22. A caller who passes [acceptFileOnDblClick] as [false], or as a
    property that is there and undefined, gets a dialog in which a
    double click on a file only cancels the event: nothing is clicked
    and nothing is forwarded. *)
Theorem dblclick_accept_switched_off
    (launch : Dialog.t -> World -> Dialog.IResult * World)
    (options : IBrowseFileDialogOptions) (w : World)
    (host : BrowseFileDialog.Host) (event : Dom.Event) (clickedItem : IModel) :
  acceptFileOnDblClick options = Some (Some false)
  \/ acceptFileOnDblClick options = Some None ->
  Dom.type event = "dblclick" ->
  BrowseFileDialog.modelForClick host event = Some clickedItem ->
  type clickedItem <> "directory" ->
  BrowseFileDialog.handleEvent
    (Dialog.body (dialog (showBrowseFileDialog launch options w))) host event
  = [BrowseFileDialog.PreventDefault event; BrowseFileDialog.StopPropagation event].
Proof.
  intros Hopt Hty Hitem Hfile.
  rewrite (DialogFacts.dblclick_other _ host event Hty) by now rewrite Hitem.
  rewrite acceptFileOnDblClick_default.
  destruct Hopt as [-> | ->]; reflexivity.
Qed.

Lemma dblclick_accept_switched_off_witness :
  BrowseFileDialog.handleEvent
    (Dialog.body (dialog (showBrowseFileDialog Examples.pressSelect
                            Examples.quietOptions Examples.world0)))
    (Examples.openHost Examples.fileItem) Examples.dblclick
  = [BrowseFileDialog.PreventDefault Examples.dblclick;
     BrowseFileDialog.StopPropagation Examples.dblclick].
Proof.
  assert (Hfile : type Examples.fileItem <> "directory") by discriminate.
  apply (dblclick_accept_switched_off Examples.pressSelect Examples.quietOptions
           Examples.world0 (Examples.openHost Examples.fileItem) Examples.dblclick
           Examples.fileItem (or_intror eq_refl) eq_refl eq_refl Hfile).
Defined.

End MoreShow.
